(** * kenlord-sms: the category / contact / bulk-SMS views of [app.py]

    A shallow embedding of the Flask views of [src/app.py] over the three
    tables of [src/models.py].  A view is a computation over an explicit
    [World]: the committed rows of the SQLite file, the unit of work of the
    ORM session, the flashed messages, the logged-in user of the browser
    session and the requests posted to the SMS vendor.  An exception is a
    result of its own, so that "no exception escapes" is a statement about
    the value a view returns.

    Text is modelled as [string], one character per code point below 256. *)

From Stdlib Require Import List String Ascii ZArith NArith Bool Lia.
Import ListNotations.

Local Open Scope string_scope.
Local Open Scope Z_scope.

(* ===================================================================== *)
(** ** Python text: [str.isspace], [str.strip] and truthiness            *)
(* ===================================================================== *)

Module PyStr.

(** [chr(n).isspace()] for n < 256: TAB..CR, FS..US, SPACE, NEL, NBSP. *)
Definition isspace (c : ascii) : bool :=
  let n := N_of_ascii c in
  (((9 <=? n) && (n <=? 13)) || ((28 <=? n) && (n <=? 32))
   || (n =? 133) || (n =? 160))%N.

Fixpoint lstrip (s : string) : string :=
  match s with
  | EmptyString => EmptyString
  | String c r => if isspace c then lstrip r else s
  end.

Fixpoint rstrip (s : string) : string :=
  match s with
  | EmptyString => EmptyString
  | String c r =>
      match rstrip r with
      | EmptyString => if isspace c then EmptyString else String c EmptyString
      | r' => String c r'
      end
  end.

(** [s.strip()] *)
Definition strip (s : string) : string := rstrip (lstrip s).

(** [bool(s)]: a text is falsy exactly when it is empty. *)
Definition truthy (s : string) : bool :=
  match s with EmptyString => false | _ => true end.

(** The reading of "blank / whitespace-only" used by the specification:
    every character of the text is a whitespace character. *)
Fixpoint blank (s : string) : bool :=
  match s with
  | EmptyString => true
  | String c r => isspace c && blank r
  end.

End PyStr.

(** A Python value that reaches a column of the store: [None], a text, or
    the float NaN that pandas puts in an empty spreadsheet cell. *)
Inductive pyval : Type :=
| PyNone
| PyStr (s : string)
| PyNaN.

(** [str(v)] *)
Definition str (v : pyval) : string :=
  match v with
  | PyNone => "None"
  | PyStr s => s
  | PyNaN => "nan"
  end.

Definition of_option (o : option string) : pyval :=
  match o with Some s => PyStr s | None => PyNone end.

(** The SQL value a Python value is bound to; [None] is NULL.  SQLite binds
    a NaN double as NULL. *)
Definition bind_param (v : pyval) : option string :=
  match v with
  | PyNone => None
  | PyStr s => Some s
  | PyNaN => None
  end.

(* ===================================================================== *)
(** ** models.py: the three tables                                        *)
(* ===================================================================== *)

Module Category.
(** [id] is the integer primary key, [name] is unique and NOT NULL. *)
Record t : Type := Build { id : Z; name : string }.
End Category.

Module Contact.
(** [name], [phone] and [category_id] are all declared [nullable=False]. *)
Record t : Type :=
  Build { id : Z; name : string; phone : string; category_id : Z }.
End Contact.

Module User.
Record t : Type :=
  Build { id : Z; username : string; password_hash : string }.
End User.

Record Database : Type := mkDatabase {
  categories : list Category.t;
  contacts : list Contact.t;
  users : list User.t
}.

(** The rowid SQLite gives to a new row of an INTEGER PRIMARY KEY table:
    one more than the largest rowid in use, 1 in an empty table. *)
Definition next_id (ids : list Z) : Z := 1 + fold_right Z.max 0 ids.

(** [Category.contacts]: the relationship of models.py line 12, loaded as
    the contacts whose [category_id] is the category's id. *)
Definition contacts_of (category_id : Z) (d : Database) : list Contact.t :=
  filter (fun c => Contact.category_id c =? category_id) (contacts d).

(* ===================================================================== *)
(** ** Exceptions and results                                             *)
(* ===================================================================== *)

(** The exceptions the views meet.  The text of an [IntegrityError] stands for
    the message of the SQLite driver, which SQLAlchemy quotes in its own. *)
Inductive Exception : Type :=
| HTTPException (code : Z) (description : string)
| AttributeError (msg : string)
| KeyError (key : string)
| IntegrityError (msg : string)
| OverflowError (msg : string)
| OtherException (msg : string).

(** [get_or_404] aborts with werkzeug's NotFound. *)
Definition NotFound : Exception := HTTPException 404 "Not Found".

(** A missing key of [request.form] / [request.files]. *)
Definition BadRequestKeyError : Exception := HTTPException 400 "Bad Request".

(** [str(e)], as interpolated by the f-strings of the views. *)
Definition str_exc (e : Exception) : string :=
  match e with
  | HTTPException _ d => d
  | AttributeError m => m
  | KeyError k => "'" ++ k ++ "'"
  | IntegrityError m => m
  | OverflowError m => m
  | OtherException m => m
  end.

Inductive Result (A : Type) : Type :=
| Return (a : A)
| Raise (e : Exception).
Arguments Return {A} a.
Arguments Raise {A} e.

(* ===================================================================== *)
(** ** The world a view runs in                                           *)
(* ===================================================================== *)

(** An object registered with [db.session] and not yet flushed. *)
Inductive Pending : Type :=
| NewCategory (name : pyval)
| NewContact (name phone : pyval) (category_id : Z)
| DeletedCategory (c : Category.t)
| DeletedContact (c : Contact.t)
| DirtyContact (id : Z) (name phone : pyval).

(** The JSON body posted to the vendor. *)
Record Payload : Type := mkPayload {
  key : option string;
  recipient : list string;
  sender : option string;
  message : option string
}.

Record World : Type := mkWorld {
  db : Database;                       (* committed rows *)
  pending : list Pending;              (* db.session, in order of registration *)
  flashes : list (string * string);    (* (message, category), oldest first *)
  session_user_id : option Z;          (* flask_login's session entry *)
  outbox : list (string * Payload)     (* (url, json) of every requests.post *)
}.

Definition set_db (d : Database) (w : World) : World :=
  mkWorld d (pending w) (flashes w) (session_user_id w) (outbox w).
Definition set_pending (p : list Pending) (w : World) : World :=
  mkWorld (db w) p (flashes w) (session_user_id w) (outbox w).
Definition set_flashes (f : list (string * string)) (w : World) : World :=
  mkWorld (db w) (pending w) f (session_user_id w) (outbox w).
Definition set_session_user_id (u : option Z) (w : World) : World :=
  mkWorld (db w) (pending w) (flashes w) u (outbox w).
Definition set_outbox (o : list (string * Payload)) (w : World) : World :=
  mkWorld (db w) (pending w) (flashes w) (session_user_id w) o.

(** A computation that may change the world and may raise.  What was done
    before a raise stays done: this is a state monad under, not over, the
    exceptions. *)
Definition View (A : Type) : Type := World -> Result A * World.

Definition ret {A} (a : A) : View A := fun w => (Return a, w).

Definition raise {A} (e : Exception) : View A := fun w => (Raise e, w).

Definition bind {A B} (m : View A) (k : A -> View B) : View B :=
  fun w =>
    match m w with
    | (Return a, w') => k a w'
    | (Raise e, w') => (Raise e, w')
    end.

(** [try: body except Exception as e: handler(e)] *)
Definition try_except {A} (body : View A) (handler : Exception -> View A)
  : View A :=
  fun w =>
    match body w with
    | (Return a, w') => (Return a, w')
    | (Raise e, w') => handler e w'
    end.

Declare Scope view_scope.
Delimit Scope view_scope with view.
Notation "x <- m ;; k" := (bind m (fun x => k))
  (at level 100, m at next level, right associativity) : view_scope.
Notation "m ;; k" := (bind m (fun _ => k))
  (at level 100, right associativity) : view_scope.
Local Open Scope view_scope.

(** [for x in xs: body(x)] *)
Fixpoint for_each {A} (xs : list A) (body : A -> View unit) : View unit :=
  match xs with
  | [] => ret tt
  | x :: rest => body x ;; for_each rest body
  end.

(** [flash(message, category)] *)
Definition flash (msg category : string) : View unit :=
  fun w => (Return tt, set_flashes (flashes w ++ [(msg, category)]) w).

(* ===================================================================== *)
(** ** flask_sqlalchemy: the session and the queries                      *)
(* ===================================================================== *)

Definition with_categories (cs : list Category.t) (d : Database) : Database :=
  mkDatabase cs (contacts d) (users d).
Definition with_contacts (cs : list Contact.t) (d : Database) : Database :=
  mkDatabase (categories d) cs (users d).

(** [UPDATE contact SET name = n, phone = p WHERE id = i] *)
Definition edited (i : Z) (n p : string) (l : list Contact.t) : list Contact.t :=
  map (fun x => if Contact.id x =? i
                then Contact.Build (Contact.id x) n p (Contact.category_id x)
                else x) l.

(** What the flush of one registered object does to the rows.
    - A new row gets the next rowid; a NULL in a [nullable=False] column
      and a second category of the same name are refused by SQLite.
    - The relationship [Category.contacts] (models.py line 12) declares no
      delete cascade, so deleting a category first detaches its contacts by
      setting their [category_id] to NULL; that column is [nullable=False]
      (models.py line 22), so the flush is refused as soon as there is one. *)
Definition flush_one (p : Pending) (d : Database) : Result Database :=
  match p with
  | NewCategory v =>
      match bind_param v with
      | None => Raise (IntegrityError "NOT NULL constraint failed: category.name")
      | Some n =>
          if existsb (fun c => (Category.name c =? n)%string) (categories d)
          then Raise (IntegrityError "UNIQUE constraint failed: category.name")
          else Return (with_categories
                 (categories d ++
                  [Category.Build (next_id (map Category.id (categories d))) n]) d)
      end
  | NewContact vn vp cid =>
      match bind_param vn, bind_param vp with
      | None, _ => Raise (IntegrityError "NOT NULL constraint failed: contact.name")
      | Some _, None =>
          Raise (IntegrityError "NOT NULL constraint failed: contact.phone")
      | Some n, Some p =>
          Return (with_contacts
            (contacts d ++
             [Contact.Build (next_id (map Contact.id (contacts d))) n p cid]) d)
      end
  | DeletedCategory c =>
      match contacts_of (Category.id c) d with
      | [] => Return (with_categories
                (filter (fun x => negb (Category.id x =? Category.id c))
                        (categories d)) d)
      | _ :: _ =>
          Raise (IntegrityError "NOT NULL constraint failed: contact.category_id")
      end
  | DeletedContact c =>
      Return (with_contacts
        (filter (fun x => negb (Contact.id x =? Contact.id c)) (contacts d)) d)
  | DirtyContact i vn vp =>
      match bind_param vn, bind_param vp with
      | None, _ => Raise (IntegrityError "NOT NULL constraint failed: contact.name")
      | Some _, None =>
          Raise (IntegrityError "NOT NULL constraint failed: contact.phone")
      | Some n, Some p =>
          Return (with_contacts (edited i n p (contacts d)) d)
      end
  end.

Fixpoint flush (ps : list Pending) (d : Database) : Result Database :=
  match ps with
  | [] => Return d
  | p :: rest =>
      match flush_one p d with
      | Return d' => flush rest d'
      | Raise e => Raise e
      end
  end.

(** [db.session.add(obj)], [db.session.delete(obj)] and an attribute
    assignment on a loaded object all register with the session. *)
Definition session_register (p : Pending) : View unit :=
  fun w => (Return tt, set_pending (pending w ++ [p]) w).

(** [db.session.commit()]: one transaction.  Either every registered object
    is flushed, or the IntegrityError is raised and nothing is written. *)
Definition commit : View unit :=
  fun w =>
    match flush (pending w) (db w) with
    | Return d' => (Return tt, set_pending [] (set_db d' w))
    | Raise e => (Raise e, set_pending [] w)
    end.

(** The integers SQLite stores and binds: 64 bits, signed. *)
Definition sqlite_integer (i : Z) : bool :=
  (- 2 ^ 63 <=? i) && (i <? 2 ^ 63).

(** What the driver raises for a parameter outside that range; the
    [<int:...>] converter of the routes lets any run of digits through. *)
Definition int_too_large : Exception :=
  OverflowError "Python int too large to convert to SQLite INTEGER".

(** [Category.query.get(id)].  A stored id is a SQLite integer, so the
    binding of the id can only overflow for an id that is not stored. *)
Definition Category_query_get (i : Z) : View (option Category.t) :=
  fun w =>
    match find (fun c => Category.id c =? i) (categories (db w)) with
    | Some c => (Return (Some c), w)
    | None =>
        if sqlite_integer i then (Return None, w) else (Raise int_too_large, w)
    end.

(** [Contact.query.get(id)], likewise. *)
Definition Contact_query_get (i : Z) : View (option Contact.t) :=
  fun w =>
    match find (fun c => Contact.id c =? i) (contacts (db w)) with
    | Some c => (Return (Some c), w)
    | None =>
        if sqlite_integer i then (Return None, w) else (Raise int_too_large, w)
    end.

(** [Model.query.get_or_404(id)] *)
Definition or_404 {A} (q : View (option A)) : View A :=
  o <- q ;;
  match o with
  | Some x => ret x
  | None => raise NotFound
  end.

(** [Category.query.filter_by(name=name).first()] *)
Definition Category_query_filter_by_name_first (n : string)
  : View (option Category.t) :=
  fun w =>
    (Return (find (fun c => (Category.name c =? n)%string) (categories (db w))), w).

(** [User.query.filter_by(username=username).first()] *)
Definition User_query_filter_by_username_first (n : string)
  : View (option User.t) :=
  fun w =>
    (Return (find (fun u => (User.username u =? n)%string) (users (db w))), w).

(** [category.contacts], read from the rows. *)
Definition Category_contacts (c : Category.t) : View (list Contact.t) :=
  fun w => (Return (contacts_of (Category.id c) (db w)), w).

(* ===================================================================== *)
(** ** The request                                                        *)
(* ===================================================================== *)

(** A parsed sheet: the header and, per row, one cell per column.  A cell is
    a text or, when the cell is empty, [PyNaN]. *)
Record DataFrame : Type := mkDataFrame {
  columns : list string;
  rows : list (list pyval)
}.

(** What [pd.read_excel] makes of the uploaded bytes. *)
Inductive ExcelFile : Type :=
| Workbook (df : DataFrame)
| Unreadable (e : Exception).

Record FileStorage : Type := mkFileStorage {
  filename : string;
  content : ExcelFile
}.

Record Request : Type := mkRequest {
  method : string;
  form : list (string * string);
  files : list (string * FileStorage)
}.

Fixpoint lookup {V} (k : string) (d : list (string * V)) : option V :=
  match d with
  | [] => None
  | (k', v) :: rest => if (k' =? k)%string then Some v else lookup k rest
  end.

(** [d[k]] on [request.form] / [request.files] *)
Definition getitem {V} (d : list (string * V)) (k : string) : View V :=
  match lookup k d with
  | Some v => ret v
  | None => raise BadRequestKeyError
  end.

(** [pd.read_excel(filepath)] on the file just saved *)
Definition read_excel (f : FileStorage) : View DataFrame :=
  match content f with
  | Workbook df => ret df
  | Unreadable e => raise e
  end.

(** ['Phone' in df.columns] *)
Definition in_columns (k : string) (df : DataFrame) : bool :=
  existsb (fun c => (c =? k)%string) (columns df).

(** [row[k]] on a row of [df.iterrows()] *)
Fixpoint series_lookup (cols : list string) (cells : list pyval) (k : string)
  : option pyval :=
  match cols, cells with
  | c :: cs, v :: vs => if (c =? k)%string then Some v else series_lookup cs vs k
  | _, _ => None
  end.

Definition row_getitem (df : DataFrame) (row : list pyval) (k : string)
  : View pyval :=
  match series_lookup (columns df) row k with
  | Some v => ret v
  | None => raise (KeyError k)
  end.

(* ===================================================================== *)
(** ** Responses, flask_login                                             *)
(* ===================================================================== *)

Inductive Url : Type :=
| url_for_dashboard
| url_for_login
| url_for_view_contacts (category_id : Z).

Inductive Response : Type :=
| redirect (location : Url)
| render_template (template : string).

(** [current_user], through the [load_user] callback of app.py line 37. *)
Definition current_user (w : World) : option User.t :=
  match session_user_id w with
  | Some uid => find (fun u => User.id u =? uid) (users (db w))
  | None => None
  end.

(** [@login_required]: an anonymous request is sent to [login_view] with the
    login message flashed under [login_message_category]. *)
Definition login_required (view : View Response) : View Response :=
  fun w =>
    match current_user w with
    | Some _ => view w
    | None =>
        (flash "Please log in to access this page." "info" ;;
         ret (redirect url_for_login)) w
    end.

(** [login_user(user)] *)
Definition login_user (u : User.t) : View unit :=
  fun w => (Return tt, set_session_user_id (Some (User.id u)) w).

(** The answer of [requests.post]: an HTTP response, or an exception raised
    by the transport. *)
Inductive PostResult : Type :=
| HttpResponse (status_code : Z) (text : string)
| TransportFault (e : Exception).

(* ===================================================================== *)
(** ** app.py: the views                                                  *)
(* ===================================================================== *)

Section Views.

(** The process environment read by [os.getenv]. *)
Variable environ : string -> option string.

(** The vendor and the network between: what [requests.post(url, json=..)]
    comes back with. *)
Variable vendor : string -> Payload -> PostResult.

(** werkzeug's [check_password_hash(pwhash, password)]. *)
Variable check_password_hash : string -> string -> bool.

Definition os_getenv (k : string) : option string := environ k.

(** [requests.post(url, json=payload)]: the call is recorded, then the
    response is returned or the transport's exception raised. *)
Definition requests_post (url : string) (payload : Payload)
  : View (Z * string) :=
  fun w =>
    let w' := set_outbox (outbox w ++ [(url, payload)]) w in
    match vendor url payload with
    | HttpResponse status_code text => (Return (status_code, text), w')
    | TransportFault e => (Raise e, w')
    end.

(** [User.check_password] (models.py lines 34-35) *)
Definition check_password (u : User.t) (password : string) : bool :=
  check_password_hash (User.password_hash u) password.

(** app.py lines 55-70 *)
Definition add_category (request : Request) : View Response :=
  login_required (
    name <- getitem (form request) "name" ;;
    if (PyStr.strip name =? "")%string then
      flash "Category name cannot be empty!" "danger" ;;
      ret (redirect url_for_dashboard)
    else
      existing <- Category_query_filter_by_name_first name ;;
      match existing with
      | Some _ =>
          flash "Category already exists!" "warning" ;;
          ret (redirect url_for_dashboard)
      | None =>
          session_register (NewCategory (PyStr name)) ;;
          commit ;;
          flash "Category added successfully!" "success" ;;
          ret (redirect url_for_dashboard)
      end).

(** app.py lines 73-83 *)
Definition delete_category (id : Z) : View Response :=
  login_required (
    category <- Category_query_get id ;;
    match category with
    | Some c =>
        session_register (DeletedCategory c) ;;
        commit ;;
        flash "Category deleted successfully!" "success"
    | None =>
        flash "Category not found!" "danger"
    end ;;
    ret (redirect url_for_dashboard)).

(** app.py lines 94-121.  Saving the upload under its sanitised name is
    not modelled; [read_excel] stands for parsing the saved file. *)
Definition upload_contacts (category_id : Z) (request : Request)
  : View Response :=
  login_required (
    category <- or_404 (Category_query_get category_id) ;;
    file <- getitem (files request) "file" ;;
    if negb (PyStr.truthy (filename file)) then
      flash "No file selected!" "danger" ;;
      ret (redirect (url_for_view_contacts category_id))
    else
      try_except
        (df <- read_excel file ;;
         for_each (rows df) (fun row =>
           if in_columns "Phone" df then
             cell <- row_getitem df row "Phone" ;;
             let phone := str cell in
             name <- (if in_columns "Name" df
                      then row_getitem df row "Name"
                      else ret PyNone) ;;
             session_register
               (NewContact name (PyStr phone) (Category.id category))
           else ret tt) ;;
         commit ;;
         flash "Contacts uploaded successfully!" "success")
        (fun e =>
           flash ("Error uploading contacts: " ++ str_exc e) "danger") ;;
      ret (redirect (url_for_view_contacts category_id))).

(** app.py lines 124-139.  [phone.strip()] on a missing field is an
    attribute access on [None]. *)
Definition add_contact (category_id : Z) (request : Request)
  : View Response :=
  login_required (
    category <- or_404 (Category_query_get category_id) ;;
    let name := lookup "name" (form request) in
    let phone := lookup "phone" (form request) in
    stripped <- match phone with
                | Some p => ret (PyStr.strip p)
                | None => raise (AttributeError
                    "'NoneType' object has no attribute 'strip'")
                end ;;
    if negb (PyStr.truthy stripped) then
      flash "Phone number is required!" "danger" ;;
      ret (redirect (url_for_view_contacts category_id))
    else
      session_register
        (NewContact (of_option name) (of_option phone) (Category.id category)) ;;
      commit ;;
      flash "Contact added successfully!" "success" ;;
      ret (redirect (url_for_view_contacts category_id))).

(** app.py lines 142-150 *)
Definition edit_contact (contact_id : Z) (request : Request)
  : View Response :=
  login_required (
    contact <- or_404 (Contact_query_get contact_id) ;;
    session_register
      (DirtyContact (Contact.id contact)
         (of_option (lookup "name" (form request)))
         (of_option (lookup "phone" (form request)))) ;;
    commit ;;
    flash "Contact updated successfully!" "success" ;;
    ret (redirect (url_for_view_contacts (Contact.category_id contact)))).

(** app.py lines 153-161 *)
Definition delete_contact (contact_id : Z) : View Response :=
  login_required (
    contact <- or_404 (Contact_query_get contact_id) ;;
    let category_id := Contact.category_id contact in
    session_register (DeletedContact contact) ;;
    commit ;;
    flash "Contact deleted successfully!" "success" ;;
    ret (redirect (url_for_view_contacts category_id))).

(** [not message or not message.strip()] *)
Definition no_message (message : option string) : bool :=
  match message with
  | None => true
  | Some m => negb (PyStr.truthy m) || negb (PyStr.truthy (PyStr.strip m))
  end.

(** app.py lines 165-199 *)
Definition send_sms (category_id : Z) (request : Request) : View Response :=
  login_required (
    category <- or_404 (Category_query_get category_id) ;;
    let message := lookup "message" (form request) in
    let sender_id := os_getenv "SENDER_ID" in
    let api_key := os_getenv "MNOTIFY_API_KEY" in
    if no_message message then
      flash "Message cannot be empty!" "danger" ;;
      ret (redirect (url_for_view_contacts (Category.id category)))
    else
      owned <- Category_contacts category ;;
      let contacts := map Contact.phone owned in
      match contacts with
      | [] =>
          flash "No contacts found in this category!" "danger" ;;
          ret (redirect (url_for_view_contacts (Category.id category)))
      | _ :: _ =>
          let url := "https://api.mnotify.com/api/sms/quick" in
          let payload := mkPayload api_key contacts sender_id message in
          try_except
            (response <- requests_post url payload ;;
             if fst response =? 200 then
               flash "Messages sent successfully!" "success"
             else
               flash ("Failed to send SMS: " ++ snd response) "danger")
            (fun e => flash ("Error sending SMS: " ++ str_exc e) "danger") ;;
          ret (redirect (url_for_view_contacts (Category.id category)))
      end).

(** app.py lines 203-216 *)
Definition login (request : Request) : View Response :=
  returned <-
  (if (method request =? "POST")%string then
     username <- getitem (form request) "username" ;;
     password <- getitem (form request) "password" ;;
     user <- User_query_filter_by_username_first username ;;
     match user with
     | Some u =>
         if check_password u password then
           login_user u ;;
           flash "Login successful!" "success" ;;
           ret (Some (redirect url_for_dashboard))
         else
           flash "Invalid username or password" "danger" ;;
           ret None
     | None =>
         flash "Invalid username or password" "danger" ;;
         ret None
     end
   else ret None) ;;
  match returned with
  | Some response => ret response
  | None => ret (render_template "login.html")
  end.

End Views.

(* ===================================================================== *)
(** ** app.py: the remaining views, models.py and init_db.py              *)
(* ===================================================================== *)

(** [logout_user()] *)
Definition logout_user : View unit :=
  fun w => (Return tt, set_session_user_id None w).

(** app.py lines 219-224 *)
Definition logout : View Response :=
  login_required (
    logout_user ;;
    flash "Logged out successfully!" "info" ;;
    ret (redirect url_for_login)).

(** The keyword arguments a template is rendered with. *)
Inductive Context : Type :=
| ctx_categories (categories : list Category.t)
| ctx_category (category : Category.t).

(** The answer of a view that may render a template with arguments. *)
Inductive Page : Type :=
| page_response (r : Response)
| page_rendered (template : string) (context : Context)
| page_html (body : list N).

(** The code points of a text. *)
Definition code_points (s : string) : list N :=
  map N_of_ascii (list_ascii_of_string s).

(** app.py lines 41-43: no [@login_required].  The body ends in the rocket,
    U+1F680, which is why it is given by its code points. *)
Definition home : View Page :=
  ret (page_html (code_points "<h2>School SMS App is Running " ++
                  [128640%N] ++ code_points "</h2>")).

(** [@login_required] on a view that renders a page. *)
Definition login_required_page (view : View Page) : View Page :=
  fun w =>
    match current_user w with
    | Some _ => view w
    | None =>
        (flash "Please log in to access this page." "info" ;;
         ret (page_response (redirect url_for_login))) w
    end.

(** [Category.query.all()] *)
Definition Category_query_all : View (list Category.t) :=
  fun w => (Return (categories (db w)), w).

(** app.py lines 47-51 *)
Definition dashboard : View Page :=
  login_required_page (
    categories <- Category_query_all ;;
    ret (page_rendered "dashboard.html" (ctx_categories categories))).

(** app.py lines 87-91 *)
Definition view_contacts (category_id : Z) : View Page :=
  login_required_page (
    category <- or_404 (Category_query_get category_id) ;;
    ret (page_rendered "contacts.html" (ctx_category category))).

Section Provisioning.

(** werkzeug's [generate_password_hash(password)]. *)
Variable generate_password_hash : string -> string.

(** A [User] object before it is flushed: it has no id yet, and no
    [password_hash] until [set_password] is called. *)
Record NewUser : Type := mkNewUser {
  new_username : pyval;
  new_password_hash : pyval
}.

(** [User.set_password] (models.py lines 31-32) *)
Definition set_password (u : NewUser) (password : string) : NewUser :=
  mkNewUser (new_username u) (PyStr (generate_password_hash password)).

(** The flush of a new user: both columns are NOT NULL and [username] is
    unique (models.py lines 28-29). *)
Definition flush_new_user (u : NewUser) (d : Database) : Result Database :=
  match bind_param (new_username u), bind_param (new_password_hash u) with
  | None, _ => Raise (IntegrityError "NOT NULL constraint failed: user.username")
  | Some _, None =>
      Raise (IntegrityError "NOT NULL constraint failed: user.password_hash")
  | Some n, Some h =>
      if existsb (fun x => (User.username x =? n)%string) (users d)
      then Raise (IntegrityError "UNIQUE constraint failed: user.username")
      else Return (mkDatabase (categories d) (contacts d)
                     (users d ++ [User.Build (next_id (map User.id (users d))) n h]))
  end.

(** init_db.py lines 4-9, on the tables as they are; the final [print] is
    not modelled. *)
Definition init_db (d : Database) : Result Database :=
  let user := mkNewUser (PyStr "admin") PyNone in
  let user := set_password user "12345" in
  flush_new_user user d.

End Provisioning.

(** One call of a view, with the arguments the URL rule and the request
    give it. *)
Inductive Call : Type :=
| call_home
| call_dashboard
| call_add_category (request : Request)
| call_delete_category (id : Z)
| call_view_contacts (category_id : Z)
| call_upload_contacts (category_id : Z) (request : Request)
| call_add_contact (category_id : Z) (request : Request)
| call_edit_contact (contact_id : Z) (request : Request)
| call_delete_contact (contact_id : Z)
| call_send_sms (category_id : Z) (request : Request)
| call_login (request : Request)
| call_logout.

Definition as_page (view : View Response) : View Page :=
  r <- view ;; ret (page_response r).

Section Application.

Variable environ : string -> option string.
Variable vendor : string -> Payload -> PostResult.
Variable check_password_hash : string -> string -> bool.

(** The view functions registered with [@app.route], by what is called. *)
Definition run (c : Call) : View Page :=
  match c with
  | call_home => home
  | call_dashboard => dashboard
  | call_add_category request => as_page (add_category request)
  | call_delete_category id => as_page (delete_category id)
  | call_view_contacts category_id => view_contacts category_id
  | call_upload_contacts category_id request =>
      as_page (upload_contacts category_id request)
  | call_add_contact category_id request =>
      as_page (add_contact category_id request)
  | call_edit_contact contact_id request =>
      as_page (edit_contact contact_id request)
  | call_delete_contact contact_id => as_page (delete_contact contact_id)
  | call_send_sms category_id request =>
      as_page (send_sms environ vendor category_id request)
  | call_login request => as_page (login check_password_hash request)
  | call_logout => as_page logout
  end.

(** The end of a request: [db.session.remove()] drops whatever is still
    registered with the session. *)
Definition teardown (w : World) : World := set_pending [] w.

(** A sequence of requests served one after the other. *)
Fixpoint serve (cs : list Call) (w : World) : World :=
  match cs with
  | [] => w
  | c :: rest => serve rest (teardown (snd (run c w)))
  end.

End Application.

(* ===================================================================== *)
(** ** A small installation used for the concrete runs                    *)
(* ===================================================================== *)

Module Sample.

Definition admin : User.t := User.Build 1 "admin" "pbkdf2:12345".

(** Two categories; the first owns two contacts, the second none. *)
Definition rows0 : Database :=
  mkDatabase
    [Category.Build 1 "Parents"; Category.Build 2 "Staff"]
    [Contact.Build 1 "Ama" "0241000001" 1; Contact.Build 2 "Kofi" "0241000002" 1]
    [admin].

(** The world at the start of a request of the logged-in admin. *)
Definition world0 : World := mkWorld rows0 [] [] (Some 1) [].

(** The same with a third contact, owned by the second category, stored
    between the two of the first. *)
Definition rows1 : Database :=
  mkDatabase
    [Category.Build 1 "Parents"; Category.Build 2 "Staff"]
    [Contact.Build 1 "Ama" "0241000001" 1; Contact.Build 3 "Esi" "0241000003" 2;
     Contact.Build 2 "Kofi" "0241000002" 1]
    [admin].

Definition world1 : World := mkWorld rows1 [] [] (Some 1) [].

Definition environ (k : string) : option string :=
  if (k =? "SENDER_ID")%string then Some "KENLORD"
  else if (k =? "MNOTIFY_API_KEY")%string then Some "secret-key"
  else None.

Definition vendor_ok (url : string) (p : Payload) : PostResult :=
  HttpResponse 200 "{}".

Definition vendor_rejects (url : string) (p : Payload) : PostResult :=
  HttpResponse 401 "invalid key".

Definition vendor_down (url : string) (p : Payload) : PostResult :=
  TransportFault (OtherException "Connection refused").

Definition check_hash (pwhash password : string) : bool :=
  (pwhash =? "pbkdf2:" ++ password)%string.

Definition generate_hash (password : string) : string := "pbkdf2:" ++ password.

Definition post (fields : list (string * string)) : Request :=
  mkRequest "POST" fields [].

Definition upload (df : DataFrame) : Request :=
  mkRequest "POST" [] [("file", mkFileStorage "contacts.xlsx" (Workbook df))].

(** Name and Phone columns; the second row has an empty Phone cell. *)
Definition sheet2 : DataFrame :=
  mkDataFrame ["Name"; "Phone"]
    [[PyStr "A"; PyStr "123"]; [PyStr "B"; PyNaN]].

(** The three rows of the specification's example: the second has an
    empty Phone cell, the third an empty Name cell. *)
Definition sheet3 : DataFrame :=
  mkDataFrame ["Name"; "Phone"]
    [[PyStr "A"; PyStr "123"]; [PyStr "B"; PyNaN]; [PyNaN; PyStr "456"]].

End Sample.

(* ===================================================================== *)
(** ** Vocabulary of the statements                                       *)
(* ===================================================================== *)

(** The vendor's bulk endpoint, as in app.py line 182. *)
Definition vendor_url : string := "https://api.mnotify.com/api/sms/quick".

(** The body the specification describes for a bulk request: API key and
    sender id of the environment, the message, and the phones of all the
    contacts owned by the category. *)
Definition bulk_payload (environ : string -> option string) (category_id : Z)
  (message : option string) (d : Database) : Payload :=
  {| key := environ "MNOTIFY_API_KEY";
     recipient := map Contact.phone (contacts_of category_id d);
     sender := environ "SENDER_ID";
     message := message |}.

(** The session's user is a stored user. *)
Definition is_authenticated (w : World) : bool :=
  match current_user w with Some _ => true | None => false end.

(** The ORM session of a request starts with nothing registered. *)
Definition fresh_session (w : World) : Prop := pending w = [].

Definition category_exists (id : Z) (d : Database) : Prop :=
  exists c, In c (categories d) /\ Category.id c = id.

Definition contact_exists (id : Z) (d : Database) : Prop :=
  exists c, In c (contacts d) /\ Contact.id c = id.

Definition category_named (n : string) (d : Database) : Prop :=
  exists c, In c (categories d) /\ Category.name c = n.

(** The request the specification describes for a stored category: the
    category row and every contact that references it are gone, nothing
    else has changed. *)
Definition deleted_with_contacts (id : Z) (d d' : Database) : Prop :=
  categories d' = filter (fun c => negb (Category.id c =? id)) (categories d) /\
  contacts d' = filter (fun c => negb (Contact.category_id c =? id)) (contacts d) /\
  users d' = users d.

(** Inserting one contact per (name, phone) pair, each with the next id. *)
Fixpoint insert_contacts (cid : Z) (news : list (string * string))
  (l : list Contact.t) : list Contact.t :=
  match news with
  | [] => l
  | (n, p) :: rest =>
      insert_contacts cid rest
        (l ++ [Contact.Build (next_id (map Contact.id l)) n p cid])
  end.

(** The (name, phone) texts the import loop takes from a row. *)
Definition row_fields (df : DataFrame) (row : list pyval) : string * string :=
  (match series_lookup (columns df) row "Name" with
   | Some v => str v
   | None => "None"
   end,
   match series_lookup (columns df) row "Phone" with
   | Some v => str v
   | None => "None"
   end).

(** A row with a text in its Name cell and any Phone cell. *)
Definition named_row (df : DataFrame) (row : list pyval) : Prop :=
  (exists n, series_lookup (columns df) row "Name" = Some (PyStr n)) /\
  (exists v, series_lookup (columns df) row "Phone" = Some v).

(** The constraints of the schema of models.py on the rows: primary keys
    and the two [unique=True] columns hold no value twice, and the foreign
    key of every contact is the id of a stored category. *)
Definition integrity (d : Database) : Prop :=
  NoDup (map Category.id (categories d)) /\
  NoDup (map Category.name (categories d)) /\
  NoDup (map Contact.id (contacts d)) /\
  NoDup (map User.id (users d)) /\
  NoDup (map User.username (users d)) /\
  (forall c, In c (contacts d) -> category_exists (Contact.category_id c) d).

(** The changes of the rows a view can commit. *)
Inductive Transition (d : Database) : Database -> Prop :=
| t_none : Transition d d
| t_new_category (n : string) :
    ~ category_named n d ->
    Transition d
      (with_categories
         (categories d ++ [Category.Build (next_id (map Category.id (categories d))) n])
         d)
| t_deleted_category (id : Z) :
    contacts_of id d = [] ->
    Transition d
      (with_categories
         (filter (fun x => negb (Category.id x =? id)) (categories d)) d)
| t_new_contacts (cid : Z) (news : list (string * string)) :
    category_exists cid d ->
    Transition d (with_contacts (insert_contacts cid news (contacts d)) d)
| t_edited_contact (id : Z) (n p : string) :
    Transition d (with_contacts (edited id n p (contacts d)) d)
| t_deleted_contact (id : Z) :
    Transition d
      (with_contacts
         (filter (fun x => negb (Contact.id x =? id)) (contacts d)) d).

(** A registered object is a new contact of category [cid]. *)
Definition new_contact_of (cid : Z) (p : Pending) : Prop :=
  exists vn vp, p = NewContact vn vp cid.


(** The calls whose view starts with [Category.query.get_or_404]. *)
Definition category_of_call (c : Call) : option Z :=
  match c with
  | call_view_contacts category_id => Some category_id
  | call_upload_contacts category_id _ => Some category_id
  | call_add_contact category_id _ => Some category_id
  | call_send_sms category_id _ => Some category_id
  | _ => None
  end.

(** The body of the import loop of app.py lines 110-115, for the sheet [df]
    and the category id [cid]. *)
Definition import_row (df : DataFrame) (cid : Z) (row : list pyval) : View unit :=
  if in_columns "Phone" df then
    cell <- row_getitem df row "Phone" ;;
    let phone := str cell in
    name <- (if in_columns "Name" df
             then row_getitem df row "Name"
             else ret PyNone) ;;
    session_register (NewContact name (PyStr phone) cid)
  else ret tt.

(** What a view that manages categories and contacts may do to the world:
    one of the row changes above, and nothing to the outbox or to the
    login session. *)
Definition Effect (w w' : World) : Prop :=
  Transition (db w) (db w') /\
  outbox w' = outbox w /\
  session_user_id w' = session_user_id w.

(** The calls that manage categories and contacts or only show them. *)
Definition manages_rows (c : Call) : bool :=
  match c with
  | call_send_sms _ _ | call_login _ | call_logout => false
  | _ => true
  end.

Definition is_send_sms (c : Call) : bool :=
  match c with
  | call_send_sms _ _ => true
  | _ => false
  end.

(** The category owns a contact: some stored contact refers to it. *)
Definition owns_contact (category_id : Z) (d : Database) : Prop :=
  exists c, In c (contacts d) /\ Contact.category_id c = category_id.

(** The phones of the contacts of a table that refer to the category, one
    per such contact, in the order of the table. *)
Fixpoint phones_owned_by (category_id : Z) (table : list Contact.t)
  : list string :=
  match table with
  | [] => []
  | c :: rest =>
      if Z.eq_dec (Contact.category_id c) category_id
      then Contact.phone c :: phones_owned_by category_id rest
      else phones_owned_by category_id rest
  end.

(* ===================================================================== *)
(** ** Text: blank means stripped to nothing                              *)
(* ===================================================================== *)

Example strip_both_ends : PyStr.strip "  Form 2 parents  " = "Form 2 parents".
Proof. reflexivity. Qed.

Example strip_tab_newline_nbsp :
  PyStr.strip (String "009" (String "010" (String "160" "x"))) = "x".
Proof. reflexivity. Qed.

Example isspace_table :
  filter (fun n => PyStr.isspace (ascii_of_nat n)) (seq 0 256) =
  [9; 10; 11; 12; 13; 28; 29; 30; 31; 32; 133; 160]%nat.
Proof. vm_compute. reflexivity. Qed.

Lemma rstrip_cons_nonspace (c : ascii) (r : string) :
  PyStr.isspace c = false -> PyStr.rstrip (String c r) <> EmptyString.
Proof.
  intros Hc. simpl. destruct (PyStr.rstrip r); [rewrite Hc|]; discriminate.
Qed.

Lemma strip_blank (s : string) :
  PyStr.blank s = true -> PyStr.strip s = EmptyString.
Proof.
  unfold PyStr.strip. induction s as [|c r IH]; simpl; [reflexivity|].
  intros H. apply andb_prop in H as [Hc Hr]. rewrite Hc. exact (IH Hr).
Qed.

Lemma strip_empty_blank (s : string) :
  PyStr.strip s = EmptyString -> PyStr.blank s = true.
Proof.
  unfold PyStr.strip. induction s as [|c r IH]; [reflexivity|].
  cbn [PyStr.lstrip PyStr.blank]. destruct (PyStr.isspace c) eqn:Hc.
  - intros H. simpl. exact (IH H).
  - intros H. exfalso. exact (rstrip_cons_nonspace c r Hc H).
Qed.

Lemma strip_eqb_blank (s : string) :
  (PyStr.strip s =? "")%string = PyStr.blank s.
Proof.
  destruct (PyStr.blank s) eqn:Hb.
  - rewrite (strip_blank s Hb). reflexivity.
  - apply String.eqb_neq. intros H. apply strip_empty_blank in H. congruence.
Qed.

Lemma truthy_strip_blank (s : string) :
  PyStr.truthy (PyStr.strip s) = negb (PyStr.blank s).
Proof.
  rewrite <- strip_eqb_blank. destruct (PyStr.strip s); reflexivity.
Qed.

Lemma blank_false_truthy (s : string) :
  PyStr.blank s = false -> PyStr.truthy s = true.
Proof. destruct s; simpl; [discriminate | reflexivity]. Qed.

(** [not message or not message.strip()] rejects exactly the missing and the
    blank messages. *)
Lemma no_message_blank (m : string) : no_message (Some m) = PyStr.blank m.
Proof.
  unfold no_message. rewrite truthy_strip_blank, negb_involutive.
  destruct (PyStr.blank m) eqn:Hb.
  - apply orb_true_r.
  - rewrite (blank_false_truthy m Hb). reflexivity.
Qed.

(* ===================================================================== *)
(** ** Queries on the rows                                                *)
(* ===================================================================== *)

Section Find.
Context {A : Type} (f : A -> bool).

Lemma find_none_iff (l : list A) :
  find f l = None <-> forall x, In x l -> f x = false.
Proof.
  split.
  - intros H x Hx. exact (find_none f l H x Hx).
  - induction l as [|a l IH]; simpl; [reflexivity|].
    intros H. rewrite (H a (or_introl eq_refl)). apply IH.
    intros x Hx. apply H. right. exact Hx.
Qed.

Lemma find_hit (l : list A) (x : A) :
  In x l -> f x = true -> exists y, find f l = Some y /\ In y l /\ f y = true.
Proof.
  intros Hx Hf. destruct (find f l) as [y|] eqn:E.
  - exists y. apply find_some in E as [Hin Hy]. auto.
  - rewrite (find_none f l E x Hx) in Hf. discriminate.
Qed.
End Find.

Lemma login_required_authenticated (view : View Response) (w : World) :
  is_authenticated w = true -> login_required view w = view w.
Proof.
  unfold is_authenticated, login_required.
  destruct (current_user w); [reflexivity | discriminate].
Qed.

Lemma login_required_anonymous (view : View Response) (w : World) :
  is_authenticated w = false ->
  login_required view w =
    (Return (redirect url_for_login),
     set_flashes (flashes w ++ [("Please log in to access this page.", "info")]) w).
Proof.
  unfold is_authenticated, login_required.
  destruct (current_user w); [discriminate | reflexivity].
Qed.

Lemma category_get_exists (id : Z) (d : Database) :
  category_exists id d ->
  exists c, find (fun c => Category.id c =? id) (categories d) = Some c
            /\ In c (categories d) /\ Category.id c = id.
Proof.
  intros (c & Hin & Hid).
  destruct (find_hit (fun c => Category.id c =? id) (categories d) c Hin)
    as (y & Hf & Hy & Hyid).
  - apply Z.eqb_eq. exact Hid.
  - exists y. apply Z.eqb_eq in Hyid. auto.
Qed.

Lemma category_get_missing (id : Z) (d : Database) :
  ~ category_exists id d ->
  find (fun c => Category.id c =? id) (categories d) = None.
Proof.
  intros H. apply find_none_iff. intros x Hx. apply Z.eqb_neq.
  intros Hid. apply H. exists x. auto.
Qed.

Lemma category_named_find (n : string) (d : Database) :
  category_named n d ->
  exists c, find (fun c => (Category.name c =? n)%string) (categories d) = Some c.
Proof.
  intros (c & Hin & Hn).
  destruct (find_hit (fun c => (Category.name c =? n)%string) (categories d) c Hin)
    as (y & Hf & _).
  - apply String.eqb_eq. exact Hn.
  - exists y. exact Hf.
Qed.

Lemma category_unnamed_find (n : string) (d : Database) :
  ~ category_named n d ->
  find (fun c => (Category.name c =? n)%string) (categories d) = None
  /\ existsb (fun c => (Category.name c =? n)%string) (categories d) = false.
Proof.
  intros H.
  assert (Hall : forall x, In x (categories d) -> (Category.name x =? n)%string = false).
  { intros x Hx. apply String.eqb_neq. intros Hn. apply H. exists x. auto. }
  split.
  - apply find_none_iff. exact Hall.
  - destruct (existsb _ (categories d)) eqn:E; [|reflexivity].
    apply existsb_exists in E as (x & Hx & Hn). rewrite (Hall x Hx) in Hn.
    discriminate.
Qed.

(* ===================================================================== *)
(** ** Category manager                                                   *)
(* ===================================================================== *)

(** Unfolds the plumbing of a view applied to a world. *)
Ltac run_view :=
  cbv beta iota delta
    [bind ret raise flash getitem or_404 session_register commit try_except
     Category_query_get Contact_query_get
     Category_query_filter_by_name_first User_query_filter_by_username_first
     Category_contacts login_user] in *.

(** C6. A blank (whitespace-only) name leaves the rows as they are and
    flashes "Category name cannot be empty!" under "danger"; a name that is
    exactly the name of a stored category leaves the rows as they are and
    flashes "Category already exists!" under "warning"; any other name adds
    exactly one category of that name, with the next id, and flashes the
    success notice.  The view answers with the redirect to the dashboard
    throughout. *)
Theorem add_category_spec (request : Request) (name : string) (w : World) :
  is_authenticated w = true ->
  fresh_session w ->
  lookup "name" (form request) = Some name ->
  let r := add_category request w in
  fst r = Return (redirect url_for_dashboard) /\
  (PyStr.blank name = true ->
     db (snd r) = db w /\
     flashes (snd r) =
       (flashes w ++ [("Category name cannot be empty!", "danger")])%list) /\
  (PyStr.blank name = false -> category_named name (db w) ->
     db (snd r) = db w /\
     flashes (snd r) =
       (flashes w ++ [("Category already exists!", "warning")])%list) /\
  (PyStr.blank name = false -> ~ category_named name (db w) ->
     categories (db (snd r)) =
       (categories (db w) ++
        [Category.Build (next_id (map Category.id (categories (db w)))) name])%list /\
     contacts (db (snd r)) = contacts (db w) /\
     users (db (snd r)) = users (db w) /\
     flashes (snd r) =
       (flashes w ++ [("Category added successfully!", "success")])%list).
Proof.
  intros Hauth Hfresh Hname r. subst r. unfold fresh_session in Hfresh.
  unfold add_category. rewrite (login_required_authenticated _ w Hauth).
  run_view. rewrite Hname, strip_eqb_blank.
  destruct (PyStr.blank name) eqn:Hb.
  - cbn. split; [reflexivity|].
    split; [auto | split; discriminate].
  - destruct (find _ (categories (db w))) as [c|] eqn:Hfind.
    + cbn. split; [reflexivity|]. split; [discriminate|]. split; [auto|].
      intros _ H. exfalso. apply H.
      apply find_some in Hfind as [Hin Hn]. apply String.eqb_eq in Hn.
      exists c. auto.
    + assert (Hnot : ~ category_named name (db w)).
      { intros (c & Hin & Hn).
        pose proof (find_none _ _ Hfind c Hin) as Hc. cbn in Hc.
        apply String.eqb_neq in Hc. contradiction. }
      destruct (category_unnamed_find name (db w) Hnot) as [_ Hex].
      cbn. rewrite Hfresh. cbn. rewrite Hex. cbn.
      split; [reflexivity|]. split; [discriminate|].
      split; [intros _ H; contradiction | auto].
Qed.

Lemma add_category_spec_witness :
  is_authenticated Sample.world0 = true /\
  fresh_session Sample.world0 /\
  lookup "name" (form (Sample.post [("name", "Teachers")])) = Some "Teachers" /\
  categories (db (snd (add_category (Sample.post [("name", "Teachers")])
                                    Sample.world0))) =
    [Category.Build 1 "Parents"; Category.Build 2 "Staff";
     Category.Build 3 "Teachers"].
Proof.
  assert (Ha : is_authenticated Sample.world0 = true) by reflexivity.
  assert (Hf : fresh_session Sample.world0) by reflexivity.
  assert (Hn : lookup "name" (form (Sample.post [("name", "Teachers")]))
               = Some "Teachers") by reflexivity.
  split; [exact Ha | split; [exact Hf | split; [exact Hn |]]].
  destruct (add_category_spec _ _ _ Ha Hf Hn) as (_ & _ & _ & Hadd).
  destruct (Hadd eq_refl) as (Hcats & _).
  - intros (c & Hin & Hc).
    simpl in Hin. destruct Hin as [<- | [<- | []]]; discriminate.
  - exact Hcats.
Defined.

(** C1, as stated, fails for a category that owns contacts: category 1 of
    the sample rows owns two, the commit of its deletion is refused, the
    IntegrityError leaves the view, and the rows are as before. *)
Lemma delete_category_cascade_counterexample :
  is_authenticated Sample.world0 = true /\
  fresh_session Sample.world0 /\
  category_exists 1 (db Sample.world0) /\
  fst (delete_category 1 Sample.world0) =
    Raise (IntegrityError "NOT NULL constraint failed: contact.category_id") /\
  db (snd (delete_category 1 Sample.world0)) = db Sample.world0 /\
  ~ deleted_with_contacts 1 (db Sample.world0)
      (db (snd (delete_category 1 Sample.world0))).
Proof.
  repeat split.
  - exists (Category.Build 1 "Parents"). simpl. auto.
  - intros (Hcats & _). vm_compute in Hcats. discriminate.
Qed.

(** The flush of a deletion is refused exactly when the category owns a
    contact. *)
Lemma flush_deleted_category (c : Category.t) (d : Database) :
  flush [DeletedCategory c] d =
    match contacts_of (Category.id c) d with
    | [] => Return (with_categories
              (filter (fun x => negb (Category.id x =? Category.id c))
                      (categories d)) d)
    | _ :: _ =>
        Raise (IntegrityError "NOT NULL constraint failed: contact.category_id")
    end.
Proof.
  cbn [flush flush_one]. destruct (contacts_of (Category.id c) d); reflexivity.
Qed.

(** C1 (amended). For a stored category that owns no contact,
    [delete_category] removes the category row, leaves every contact and
    user row alone, flashes the success notice and redirects to the
    dashboard.  For an id that is not stored and that SQLite can bind (a
    64-bit integer), the rows are unchanged, the notice "Category not
    found!" is flashed under "danger", and the view returns the same
    redirect: no exception leaves it. *)
Theorem delete_category_spec (id : Z) (w : World) :
  is_authenticated w = true ->
  fresh_session w ->
  let r := delete_category id w in
  (category_exists id (db w) -> contacts_of id (db w) = [] ->
     fst r = Return (redirect url_for_dashboard) /\
     categories (db (snd r)) =
       filter (fun c => negb (Category.id c =? id)) (categories (db w)) /\
     ~ category_exists id (db (snd r)) /\
     contacts (db (snd r)) = contacts (db w) /\
     users (db (snd r)) = users (db w) /\
     flashes (snd r) =
       (flashes w ++ [("Category deleted successfully!", "success")])%list) /\
  (~ category_exists id (db w) -> sqlite_integer id = true ->
     fst r = Return (redirect url_for_dashboard) /\
     db (snd r) = db w /\
     flashes (snd r) = (flashes w ++ [("Category not found!", "danger")])%list).
Proof.
  intros Hauth Hfresh r. subst r. unfold fresh_session in Hfresh.
  unfold delete_category. rewrite (login_required_authenticated _ w Hauth).
  run_view. split.
  - intros Hex Hnone.
    destruct (category_get_exists id (db w) Hex) as (c & Hfind & _ & Hid).
    rewrite Hfind. cbn. rewrite Hfresh.
    change ([] ++ [DeletedCategory c])%list with [DeletedCategory c].
    rewrite flush_deleted_category, Hid, Hnone. cbn.
    repeat split.
    intros (x & Hin & Hx). apply filter_In in Hin as [_ Hneq].
    rewrite Hx, Z.eqb_refl in Hneq. discriminate.
  - intros Hmiss Hint. rewrite (category_get_missing id (db w) Hmiss), Hint. cbn.
    repeat split.
Qed.

Lemma delete_category_spec_witness :
  is_authenticated Sample.world0 = true /\
  fresh_session Sample.world0 /\
  category_exists 2 (db Sample.world0) /\
  contacts_of 2 (db Sample.world0) = [] /\
  categories (db (snd (delete_category 2 Sample.world0))) =
    [Category.Build 1 "Parents"] /\
  ~ category_exists 7 (db Sample.world0) /\
  sqlite_integer 7 = true /\
  db (snd (delete_category 7 Sample.world0)) = db Sample.world0.
Proof.
  assert (Ha : is_authenticated Sample.world0 = true) by reflexivity.
  assert (Hf : fresh_session Sample.world0) by reflexivity.
  assert (He : category_exists 2 (db Sample.world0)).
  { exists (Category.Build 2 "Staff"). simpl. auto. }
  assert (Hn : contacts_of 2 (db Sample.world0) = []) by reflexivity.
  split; [exact Ha | split; [exact Hf | split; [exact He | split; [exact Hn |]]]].
  split.
  - destruct (delete_category_spec 2 Sample.world0 Ha Hf) as (Hdel & _).
    destruct (Hdel He Hn) as (_ & Hcats & _). exact Hcats.
  - assert (Hm : ~ category_exists 7 (db Sample.world0)).
    { intros (c & Hin & Hc). simpl in Hin.
      destruct Hin as [<- | [<- | []]]; discriminate. }
    split; [exact Hm | split; [reflexivity |]].
    destruct (delete_category_spec 7 Sample.world0 Ha Hf) as (_ & Hmiss).
    destruct (Hmiss Hm eq_refl) as (_ & Hdb & _). exact Hdb.
Defined.

(** An id that is not stored and too large for SQLite: the lookup itself
    raises, nothing is flashed and the OverflowError leaves the view. *)
Lemma delete_category_overflow :
  delete_category (2 ^ 63) Sample.world0 =
    (Raise (OverflowError "Python int too large to convert to SQLite INTEGER"),
     Sample.world0).
Proof. reflexivity. Qed.

(* ===================================================================== *)
(** ** Contact manager                                                    *)
(* ===================================================================== *)

Lemma flush_new_contact (n p : string) (cid : Z) (d : Database) :
  flush [NewContact (PyStr n) (PyStr p) cid] d =
    Return (with_contacts
      (contacts d ++ [Contact.Build (next_id (map Contact.id (contacts d))) n p cid])
      d).
Proof. reflexivity. Qed.

(** C2, at a sheet whose second row has an empty Phone cell: the row is not
    skipped.  ['Phone' in df.columns] holds for every row of the sheet, the
    empty cell is read as NaN, and [str] turns it into the text "nan", which
    is stored as the phone of a second contact. *)
Theorem upload_contacts_blank_phone_row :
  let r := upload_contacts 2 (Sample.upload Sample.sheet2) Sample.world0 in
  fst r = Return (redirect (url_for_view_contacts 2)) /\
  contacts (db (snd r)) =
    (contacts Sample.rows0 ++
     [Contact.Build 3 "A" "123" 2; Contact.Build 4 "B" "nan" 2])%list /\
  flashes (snd r) = [("Contacts uploaded successfully!", "success")].
Proof. vm_compute. repeat split. Qed.

(** The three-row sheet of the specification: the empty Name cell of the
    third row is bound as NULL, the commit is refused, the error is flashed
    and no contact at all is stored. *)
Lemma upload_contacts_spec_example :
  let r := upload_contacts 2 (Sample.upload Sample.sheet3) Sample.world0 in
  fst r = Return (redirect (url_for_view_contacts 2)) /\
  contacts (db (snd r)) = contacts Sample.rows0 /\
  flashes (snd r) =
    [("Error uploading contacts: NOT NULL constraint failed: contact.name",
      "danger")].
Proof. vm_compute. repeat split. Qed.

(** C7, as stated, fails when the form carries no name field: the phone is
    not blank, yet the commit is refused for the NULL name, the
    IntegrityError leaves the view and no contact is stored. *)
Lemma add_contact_absent_name_counterexample :
  let request := Sample.post [("phone", "0241000003")] in
  is_authenticated Sample.world0 = true /\
  fresh_session Sample.world0 /\
  category_exists 2 (db Sample.world0) /\
  lookup "name" (form request) = None /\
  lookup "phone" (form request) = Some "0241000003" /\
  PyStr.blank "0241000003" = false /\
  fst (add_contact 2 request Sample.world0) =
    Raise (IntegrityError "NOT NULL constraint failed: contact.name") /\
  contacts (db (snd (add_contact 2 request Sample.world0))) =
    contacts (db Sample.world0).
Proof.
  cbv zeta. repeat split.
  exists (Category.Build 2 "Staff"). simpl. auto.
Qed.

(** The same through the import: a sheet without a Name column gives every
    row the name [None], and nothing is stored. *)
Lemma upload_contacts_no_name_column :
  let df := mkDataFrame ["Phone"] [[PyStr "456"]] in
  let r := upload_contacts 2 (Sample.upload df) Sample.world0 in
  contacts (db (snd r)) = contacts Sample.rows0 /\
  flashes (snd r) =
    [("Error uploading contacts: NOT NULL constraint failed: contact.name",
      "danger")].
Proof. vm_compute. repeat split. Qed.

(** C7 (amended). With a name field and a phone field in the form, on a
    stored category: a blank phone flashes "Phone number is required!" and
    leaves the rows unchanged; a phone that is not blank adds exactly one
    contact, with the name and the phone as sent and owned by the category.
    The name may be any text, the empty one included. *)
Theorem add_contact_spec
  (category_id : Z) (request : Request) (name phone : string) (w : World) :
  is_authenticated w = true ->
  fresh_session w ->
  category_exists category_id (db w) ->
  lookup "name" (form request) = Some name ->
  lookup "phone" (form request) = Some phone ->
  let r := add_contact category_id request w in
  fst r = Return (redirect (url_for_view_contacts category_id)) /\
  (PyStr.blank phone = true ->
     db (snd r) = db w /\
     flashes (snd r) =
       (flashes w ++ [("Phone number is required!", "danger")])%list) /\
  (PyStr.blank phone = false ->
     contacts (db (snd r)) =
       (contacts (db w) ++
        [Contact.Build (next_id (map Contact.id (contacts (db w))))
                       name phone category_id])%list /\
     categories (db (snd r)) = categories (db w) /\
     users (db (snd r)) = users (db w) /\
     flashes (snd r) =
       (flashes w ++ [("Contact added successfully!", "success")])%list).
Proof.
  intros Hauth Hfresh Hex Hname Hphone r. subst r.
  unfold fresh_session in Hfresh.
  unfold add_contact. rewrite (login_required_authenticated _ w Hauth).
  destruct (category_get_exists category_id (db w) Hex) as (c & Hfind & _ & Hid).
  run_view. rewrite Hfind, Hname, Hphone. cbn [of_option].
  rewrite truthy_strip_blank, negb_involutive.
  destruct (PyStr.blank phone) eqn:Hb.
  - cbn. split; [reflexivity|]. split; [auto | discriminate].
  - cbn. rewrite Hfresh, Hid. cbn.
    split; [reflexivity|]. split; [discriminate | auto].
Qed.

Lemma add_contact_spec_witness :
  let request := Sample.post [("name", ""); ("phone", "0241000003")] in
  is_authenticated Sample.world0 = true /\
  fresh_session Sample.world0 /\
  category_exists 2 (db Sample.world0) /\
  lookup "name" (form request) = Some "" /\
  lookup "phone" (form request) = Some "0241000003" /\
  contacts (db (snd (add_contact 2 request Sample.world0))) =
    (contacts Sample.rows0 ++ [Contact.Build 3 "" "0241000003" 2])%list.
Proof.
  cbv zeta.
  assert (Ha : is_authenticated Sample.world0 = true) by reflexivity.
  assert (Hf : fresh_session Sample.world0) by reflexivity.
  assert (He : category_exists 2 (db Sample.world0)).
  { exists (Category.Build 2 "Staff"). simpl. auto. }
  split; [exact Ha | split; [exact Hf | split; [exact He |]]].
  split; [reflexivity | split; [reflexivity |]].
  destruct (add_contact_spec 2
              (Sample.post [("name", ""); ("phone", "0241000003")])
              "" "0241000003" Sample.world0 Ha Hf He eq_refl eq_refl)
    as (_ & _ & Hadd).
  destruct (Hadd eq_refl) as (Hcontacts & _). exact Hcontacts.
Defined.

(** With no phone field in the form, [phone] is [None] and [phone.strip()]
    raises before anything is flashed or registered. *)
Lemma add_contact_missing_phone (category_id : Z) (request : Request) (w : World) :
  is_authenticated w = true ->
  category_exists category_id (db w) ->
  lookup "phone" (form request) = None ->
  add_contact category_id request w =
    (Raise (AttributeError "'NoneType' object has no attribute 'strip'"), w).
Proof.
  intros Hauth Hex Hphone.
  unfold add_contact. rewrite (login_required_authenticated _ w Hauth).
  destruct (category_get_exists category_id (db w) Hex) as (c & Hfind & _).
  run_view. rewrite Hfind, Hphone. reflexivity.
Qed.

(** C10. There is a request on a stored category, one without a phone field,
    on which [add_contact] raises the AttributeError of [None.strip()] and
    flashes nothing; the same request with an empty phone field is answered
    with the validation notice and the redirect. *)
Theorem add_contact_missing_phone_raises :
  exists (category_id : Z) (fields : list (string * string)) (w : World),
    is_authenticated w = true /\
    category_exists category_id (db w) /\
    lookup "phone" fields = None /\
    fst (add_contact category_id (Sample.post fields) w) =
      Raise (AttributeError "'NoneType' object has no attribute 'strip'") /\
    flashes (snd (add_contact category_id (Sample.post fields) w)) = flashes w /\
    fst (add_contact category_id (Sample.post (("phone", "") :: fields)) w) =
      Return (redirect (url_for_view_contacts category_id)) /\
    flashes (snd (add_contact category_id (Sample.post (("phone", "") :: fields)) w)) =
      (flashes w ++ [("Phone number is required!", "danger")])%list.
Proof.
  exists 2, [("name", "Esi")], Sample.world0.
  assert (He : category_exists 2 (db Sample.world0)).
  { exists (Category.Build 2 "Staff"). simpl. auto. }
  split; [reflexivity | split; [exact He | split; [reflexivity |]]].
  rewrite (add_contact_missing_phone 2 (Sample.post [("name", "Esi")])
             Sample.world0 eq_refl He eq_refl).
  repeat split.
Qed.

Lemma contact_get_exists (id : Z) (d : Database) :
  contact_exists id d ->
  exists c, find (fun c => Contact.id c =? id) (contacts d) = Some c
            /\ In c (contacts d) /\ Contact.id c = id.
Proof.
  intros (c & Hin & Hid).
  destruct (find_hit (fun c => Contact.id c =? id) (contacts d) c Hin)
    as (y & Hf & Hy & Hyid).
  - apply Z.eqb_eq. exact Hid.
  - exists y. apply Z.eqb_eq in Hyid. auto.
Qed.

Lemma contact_get_missing (id : Z) (d : Database) :
  ~ contact_exists id d ->
  find (fun c => Contact.id c =? id) (contacts d) = None.
Proof.
  intros H. apply find_none_iff. intros x Hx. apply Z.eqb_neq.
  intros Hid. apply H. exists x. auto.
Qed.

(** Rewriting name and phone of the rows of one id keeps every row's id and
    owning category. *)
Lemma edited_keeps_owner (id : Z) (n p : string) (l : list Contact.t) :
  map (fun x => (Contact.id x, Contact.category_id x)) (edited id n p l) =
  map (fun x => (Contact.id x, Contact.category_id x)) l.
Proof.
  unfold edited. rewrite map_map. apply map_ext. intros x.
  destruct (Contact.id x =? id); reflexivity.
Qed.

Lemma edited_In (id : Z) (n p : string) (l : list Contact.t) (y : Contact.t) :
  In y (edited id n p l) ->
  (Contact.id y = id /\ Contact.name y = n /\ Contact.phone y = p) \/
  (Contact.id y <> id /\ In y l).
Proof.
  unfold edited. intros H. apply in_map_iff in H as (x & Hy & Hx).
  destruct (Contact.id x =? id) eqn:E; subst y.
  - left. apply Z.eqb_eq in E. auto.
  - right. apply Z.eqb_neq in E. auto.
Qed.

(** C8, as stated, fails at an id that is not stored and that SQLite cannot
    bind: [<int:contact_id>] lets 2^63 through, the lookup raises an
    OverflowError, and what leaves the view is that exception, not a 404. *)
Lemma edit_contact_overflow_counterexample :
  let request := Sample.post [("name", "Kofi"); ("phone", "0241000002")] in
  is_authenticated Sample.world0 = true /\
  ~ contact_exists (2 ^ 63) (db Sample.world0) /\
  fst (edit_contact (2 ^ 63) request Sample.world0) =
    Raise (OverflowError "Python int too large to convert to SQLite INTEGER") /\
  fst (edit_contact (2 ^ 63) request Sample.world0) <>
    Raise (HTTPException 404 "Not Found").
Proof.
  cbv zeta. split; [reflexivity | split; [|split; [reflexivity | discriminate]]].
  intros (c & Hin & Hc). simpl in Hin.
  destruct Hin as [<- | [<- | []]]; discriminate.
Qed.

(** C8 (amended). For a stored contact and a form that carries a name and a
    phone, [edit_contact] stores exactly those two texts in the contact,
    whatever they are (the empty text included), keeps the id and the owning
    category of every contact, touches no other row, and redirects to the
    contacts of the owning category.  For an id that is not stored and that
    SQLite can bind (a 64-bit integer) the view aborts with 404 and nothing
    is changed. *)
Theorem edit_contact_spec
  (contact_id : Z) (request : Request) (name phone : string) (w : World) :
  is_authenticated w = true ->
  fresh_session w ->
  lookup "name" (form request) = Some name ->
  lookup "phone" (form request) = Some phone ->
  let r := edit_contact contact_id request w in
  (contact_exists contact_id (db w) ->
     (exists c, In c (contacts (db w)) /\ Contact.id c = contact_id /\
        fst r = Return (redirect (url_for_view_contacts (Contact.category_id c)))) /\
     contacts (db (snd r)) = edited contact_id name phone (contacts (db w)) /\
     (forall y, In y (contacts (db (snd r))) -> Contact.id y = contact_id ->
        Contact.name y = name /\ Contact.phone y = phone) /\
     (forall y, In y (contacts (db (snd r))) -> Contact.id y <> contact_id ->
        In y (contacts (db w))) /\
     map (fun x => (Contact.id x, Contact.category_id x)) (contacts (db (snd r))) =
       map (fun x => (Contact.id x, Contact.category_id x)) (contacts (db w)) /\
     categories (db (snd r)) = categories (db w) /\
     users (db (snd r)) = users (db w)) /\
  (~ contact_exists contact_id (db w) -> sqlite_integer contact_id = true ->
     fst r = Raise (HTTPException 404 "Not Found") /\ snd r = w).
Proof.
  intros Hauth Hfresh Hname Hphone r. subst r.
  unfold fresh_session in Hfresh.
  unfold edit_contact. rewrite (login_required_authenticated _ w Hauth).
  run_view. split.
  - intros Hex.
    destruct (contact_get_exists contact_id (db w) Hex) as (c & Hfind & Hin & Hid).
    rewrite Hfind, Hname, Hphone. cbn. rewrite Hfresh, Hid. cbn.
    fold (edited contact_id name phone (contacts (db w))).
    split; [exists c; auto|]. split; [reflexivity|].
    split; [|split; [|split; [apply edited_keeps_owner | auto]]].
    + intros y Hy Hyid. apply edited_In in Hy as [(_ & Hn & Hp) | (Hne & _)].
      * auto.
      * contradiction.
    + intros y Hy Hyid. apply edited_In in Hy as [(He & _) | (_ & Hy)].
      * contradiction.
      * exact Hy.
  - intros Hmiss Hint.
    rewrite (contact_get_missing contact_id (db w) Hmiss), Hint.
    cbn. auto.
Qed.

Lemma edit_contact_spec_witness :
  let request := Sample.post [("name", ""); ("phone", "")] in
  is_authenticated Sample.world0 = true /\
  fresh_session Sample.world0 /\
  lookup "name" (form request) = Some "" /\
  lookup "phone" (form request) = Some "" /\
  contact_exists 2 (db Sample.world0) /\
  contacts (db (snd (edit_contact 2 request Sample.world0))) =
    [Contact.Build 1 "Ama" "0241000001" 1; Contact.Build 2 "" "" 1] /\
  ~ contact_exists 9 (db Sample.world0) /\
  sqlite_integer 9 = true /\
  fst (edit_contact 9 request Sample.world0) = Raise (HTTPException 404 "Not Found").
Proof.
  cbv zeta.
  assert (Ha : is_authenticated Sample.world0 = true) by reflexivity.
  assert (Hf : fresh_session Sample.world0) by reflexivity.
  assert (He : contact_exists 2 (db Sample.world0)).
  { exists (Contact.Build 2 "Kofi" "0241000002" 1). simpl. auto. }
  split; [exact Ha | split; [exact Hf |]].
  split; [reflexivity | split; [reflexivity | split; [exact He |]]].
  split.
  - destruct (edit_contact_spec 2 (Sample.post [("name", ""); ("phone", "")])
                "" "" Sample.world0 Ha Hf eq_refl eq_refl) as (Hed & _).
    destruct (Hed He) as (_ & Hcontacts & _). exact Hcontacts.
  - assert (Hm : ~ contact_exists 9 (db Sample.world0)).
    { intros (c & Hin & Hc). simpl in Hin.
      destruct Hin as [<- | [<- | []]]; discriminate. }
    split; [exact Hm | split; [reflexivity |]].
    destruct (edit_contact_spec 9 (Sample.post [("name", ""); ("phone", "")])
                "" "" Sample.world0 Ha Hf eq_refl eq_refl) as (_ & Hmiss).
    destruct (Hmiss Hm eq_refl) as (H404 & _). exact H404.
Defined.

(* ===================================================================== *)
(** ** Notification dispatcher                                            *)
(* ===================================================================== *)

Section Dispatcher.

Variable environ : string -> option string.
Variable vendor : string -> Payload -> PostResult.

(** What [send_sms] comes to once the category is found, the message is
    not blank and the recipient list is not empty: one post, then the
    flash chosen by its outcome. *)
Lemma send_sms_posts (category_id : Z) (request : Request) (m : string) (w : World) :
  is_authenticated w = true ->
  category_exists category_id (db w) ->
  contacts_of category_id (db w) <> [] ->
  lookup "message" (form request) = Some m ->
  PyStr.blank m = false ->
  let payload := bulk_payload environ category_id (Some m) (db w) in
  let w' := set_outbox (outbox w ++ [(vendor_url, payload)]) w in
  send_sms environ vendor category_id request w =
    (Return (redirect (url_for_view_contacts category_id)),
     set_flashes
       (flashes w ++
        [match vendor vendor_url payload with
         | HttpResponse status_code text =>
             if status_code =? 200
             then ("Messages sent successfully!", "success")
             else ("Failed to send SMS: " ++ text, "danger")
         | TransportFault e => ("Error sending SMS: " ++ str_exc e, "danger")
         end]) w').
Proof.
  intros Hauth Hex Hsome Hmsg Hblank payload w'. subst payload w'.
  unfold send_sms. rewrite (login_required_authenticated _ w Hauth).
  destruct (category_get_exists category_id (db w) Hex) as (c & Hfind & _ & Hid).
  unfold requests_post, os_getenv. run_view.
  rewrite Hfind, Hmsg, no_message_blank, Hblank, Hid.
  unfold bulk_payload, vendor_url.
  destruct (contacts_of category_id (db w)) as [|c0 owned] eqn:Hown;
    [contradiction|].
  cbn [map].
  destruct (vendor _ _) as [status_code text | e]; cbn.
  - destruct (status_code =? 200); reflexivity.
  - reflexivity.
Qed.

(** The recipients the view selects are the phones of the contacts that
    refer to the category, and of no other. *)
Lemma recipients_owned (category_id : Z) (d : Database) :
  map Contact.phone (contacts_of category_id d) =
  phones_owned_by category_id (contacts d).
Proof.
  unfold contacts_of. induction (contacts d) as [|c rest IH]; [reflexivity|].
  cbn [filter phones_owned_by].
  destruct (Z.eq_dec (Contact.category_id c) category_id) as [Heq | Hneq].
  - apply Z.eqb_eq in Heq. rewrite Heq. cbn [map]. rewrite IH. reflexivity.
  - apply Z.eqb_neq in Hneq. rewrite Hneq. exact IH.
Qed.

Lemma phones_owned_by_In (category_id : Z) (table : list Contact.t) (p : string) :
  In p (phones_owned_by category_id table) <->
  exists c, In c table /\ Contact.category_id c = category_id /\ Contact.phone c = p.
Proof.
  induction table as [|c rest IH]; cbn [phones_owned_by].
  - split; [intros [] | intros (c & [] & _)].
  - destruct (Z.eq_dec (Contact.category_id c) category_id) as [Heq | Hneq].
    + split.
      * intros [<- | Hin]; [exists c; cbn; auto|].
        apply IH in Hin as (x & Hx & Hc & Hp). exists x. cbn. auto.
      * intros (x & [<- | Hx] & Hc & Hp); [left; exact Hp|].
        right. apply IH. exists x. auto.
    + split.
      * intros Hin. apply IH in Hin as (x & Hx & Hc & Hp). exists x. cbn. auto.
      * intros (x & [<- | Hx] & Hc & Hp); [contradiction|].
        apply IH. exists x. auto.
Qed.

Lemma owns_contact_selected (category_id : Z) (d : Database) :
  owns_contact category_id d -> contacts_of category_id d <> [].
Proof.
  intros (c & Hin & Hc) Hnil.
  assert (H : In c (contacts_of category_id d)).
  { unfold contacts_of. apply filter_In. split; [exact Hin|].
    apply Z.eqb_eq. exact Hc. }
  rewrite Hnil in H. destruct H.
Qed.

(** C3. On a stored category that owns at least one contact, with a
    message that is not blank, [send_sms] posts exactly one request, to
    the vendor's bulk endpoint; its body carries the API key and the
    sender id of the process environment, the message as sent, and as
    recipients the phones of the contacts that refer to the category, one
    per contact in the order of the table: a phone is a recipient exactly
    when a stored contact of that category has it. *)
Theorem send_sms_one_bulk_request
  (category_id : Z) (request : Request) (m : string) (w : World) :
  is_authenticated w = true ->
  category_exists category_id (db w) ->
  owns_contact category_id (db w) ->
  lookup "message" (form request) = Some m ->
  PyStr.blank m = false ->
  exists payload,
    outbox (snd (send_sms environ vendor category_id request w)) =
      (outbox w ++ [("https://api.mnotify.com/api/sms/quick", payload)])%list /\
    key payload = environ "MNOTIFY_API_KEY" /\
    sender payload = environ "SENDER_ID" /\
    message payload = Some m /\
    recipient payload = phones_owned_by category_id (contacts (db w)) /\
    (forall p,
       In p (recipient payload) <->
       exists c, In c (contacts (db w)) /\
                 Contact.category_id c = category_id /\ Contact.phone c = p).
Proof.
  intros Hauth Hex Hown Hmsg Hblank.
  rewrite (send_sms_posts category_id request m w Hauth Hex
             (owns_contact_selected category_id (db w) Hown) Hmsg Hblank).
  exists (bulk_payload environ category_id (Some m) (db w)).
  cbn [snd outbox set_flashes set_outbox bulk_payload key sender message recipient].
  rewrite recipients_owned.
  repeat (split; [reflexivity|]).
  intros p. apply phones_owned_by_In.
Qed.

(** C4. On a stored category that owns no contact, with a message that is
    not blank, [send_sms] posts nothing and flashes "No contacts found in
    this category!" under "danger". *)
Theorem send_sms_no_contacts
  (category_id : Z) (request : Request) (m : string) (w : World) :
  is_authenticated w = true ->
  category_exists category_id (db w) ->
  contacts_of category_id (db w) = [] ->
  lookup "message" (form request) = Some m ->
  PyStr.blank m = false ->
  let r := send_sms environ vendor category_id request w in
  fst r = Return (redirect (url_for_view_contacts category_id)) /\
  outbox (snd r) = outbox w /\
  db (snd r) = db w /\
  flashes (snd r) =
    (flashes w ++ [("No contacts found in this category!", "danger")])%list.
Proof.
  intros Hauth Hex Hnone Hmsg Hblank r. subst r.
  unfold send_sms. rewrite (login_required_authenticated _ w Hauth).
  destruct (category_get_exists category_id (db w) Hex) as (c & Hfind & _ & Hid).
  run_view.
  rewrite Hfind, Hmsg, no_message_blank, Hblank, Hid, Hnone.
  cbn. auto.
Qed.

(** C5. Whatever the vendor call comes back with, [send_sms] returns its
    redirect and never raises: status 200 flashes the success notice, any
    other status flashes the failure notice ending in the response body as
    received, and an exception of the transport is caught and flashed as
    an error with its text. *)
Theorem send_sms_vendor_outcomes
  (category_id : Z) (request : Request) (m : string) (w : World) :
  is_authenticated w = true ->
  category_exists category_id (db w) ->
  contacts_of category_id (db w) <> [] ->
  lookup "message" (form request) = Some m ->
  PyStr.blank m = false ->
  let r := send_sms environ vendor category_id request w in
  fst r = Return (redirect (url_for_view_contacts category_id)) /\
  db (snd r) = db w /\
  match vendor vendor_url (bulk_payload environ category_id (Some m) (db w)) with
  | HttpResponse status_code text =>
      (status_code = 200 ->
         flashes (snd r) =
           (flashes w ++ [("Messages sent successfully!", "success")])%list) /\
      (status_code <> 200 ->
         flashes (snd r) =
           (flashes w ++ [(("Failed to send SMS: " ++ text)%string, "danger")])%list)
  | TransportFault e =>
      flashes (snd r) =
        (flashes w ++ [(("Error sending SMS: " ++ str_exc e)%string, "danger")])%list
  end.
Proof.
  intros Hauth Hex Hsome Hmsg Hblank r. subst r.
  rewrite (send_sms_posts category_id request m w Hauth Hex Hsome Hmsg Hblank).
  cbn [fst snd]. split; [reflexivity|]. split; [reflexivity|].
  destruct (vendor _ _) as [status_code text | e]; [|reflexivity].
  split; intros Hs.
  - subst status_code. reflexivity.
  - apply Z.eqb_neq in Hs. rewrite Hs. reflexivity.
Qed.

End Dispatcher.

(* ===================================================================== *)
(** ** Authentication gate                                                *)
(* ===================================================================== *)

(** With unique usernames, the first user of a name is the user of that
    name. *)
Lemma first_by_username (n : string) (us : list User.t) (u : User.t) :
  NoDup (map User.username us) ->
  In u us -> User.username u = n ->
  find (fun x => (User.username x =? n)%string) us = Some u.
Proof.
  induction us as [|a us IH]; intros Hnd Hin Hn; [destruct Hin|].
  cbn [map] in Hnd. apply NoDup_cons_iff in Hnd as [Hfresh Hnd].
  cbn [find]. destruct (String.eqb_spec (User.username a) n) as [Ha | Ha].
  - destruct Hin as [-> | Hin]; [reflexivity|]. exfalso. apply Hfresh.
    rewrite Ha, <- Hn. apply in_map. exact Hin.
  - destruct Hin as [-> | Hin]; [contradiction|]. exact (IH Hnd Hin Hn).
Qed.

Lemma authenticated_after_login (u : User.t) (w : World) :
  In u (users (db w)) ->
  is_authenticated (set_session_user_id (Some (User.id u)) w) = true.
Proof.
  intros Hin. unfold is_authenticated, current_user. cbn.
  destruct (find_hit (fun x => User.id x =? User.id u) (users (db w)) u Hin
              (Z.eqb_refl _)) as (y & Hf & _).
  rewrite Hf. reflexivity.
Qed.

Section Gate.

Variable check_password_hash : string -> string -> bool.

(** C9. A POST of a username and a password to [login], over users with
    unique names.  If they are the name of a stored user and a password
    that checks against that user's stored hash, the session is bound to
    that user, so the next request is authenticated, and the answer is the
    redirect to the dashboard.  If no stored user has the name, or the
    password does not check against the hash of the one who has, the
    session is left as it was, "Invalid username or password" is flashed
    under "danger" and the login form is rendered again. *)
Theorem login_spec (request : Request) (username password : string) (w : World) :
  method request = "POST" ->
  lookup "username" (form request) = Some username ->
  lookup "password" (form request) = Some password ->
  NoDup (map User.username (users (db w))) ->
  let r := login check_password_hash request w in
  (forall u, In u (users (db w)) -> User.username u = username ->
     check_password check_password_hash u password = true ->
     fst r = Return (redirect url_for_dashboard) /\
     session_user_id (snd r) = Some (User.id u) /\
     is_authenticated (snd r) = true /\
     flashes (snd r) = (flashes w ++ [("Login successful!", "success")])%list) /\
  ((forall u, In u (users (db w)) -> User.username u = username ->
      check_password check_password_hash u password = false) ->
     fst r = Return (render_template "login.html") /\
     session_user_id (snd r) = session_user_id w /\
     db (snd r) = db w /\
     flashes (snd r) =
       (flashes w ++ [("Invalid username or password", "danger")])%list).
Proof.
  intros Hpost Huser Hpass Hnd r. subst r.
  unfold login. rewrite Hpost. run_view. rewrite Huser, Hpass.
  cbn [String.eqb Ascii.eqb Bool.eqb fst snd]. split.
  - intros u Hin Hname Hcheck.
    rewrite (first_by_username username _ u Hnd Hin Hname), Hcheck. cbn.
    repeat split. exact (authenticated_after_login u w Hin).
  - intros Hbad.
    destruct (find _ (users (db w))) as [u|] eqn:Hfind.
    + apply find_some in Hfind as [Hin Hname]. apply String.eqb_eq in Hname.
      rewrite (Hbad u Hin Hname). cbn. repeat split.
    + cbn. repeat split.
Qed.

End Gate.

Lemma login_spec_witness :
  let good := Sample.post [("username", "admin"); ("password", "12345")] in
  let bad := Sample.post [("username", "admin"); ("password", "1234")] in
  let w := set_session_user_id None Sample.world0 in
  method good = "POST" /\
  lookup "username" (form good) = Some "admin" /\
  lookup "password" (form good) = Some "12345" /\
  NoDup (map User.username (users (db w))) /\
  session_user_id (snd (login Sample.check_hash good w)) = Some 1 /\
  session_user_id (snd (login Sample.check_hash bad w)) = None.
Proof.
  cbv zeta.
  assert (Hnd : NoDup (map User.username
                         (users (db (set_session_user_id None Sample.world0))))).
  { cbn. constructor; [intros [] | constructor]. }
  split; [reflexivity | split; [reflexivity | split; [reflexivity |]]].
  split; [exact Hnd | split].
  - destruct (login_spec Sample.check_hash
                (Sample.post [("username", "admin"); ("password", "12345")])
                "admin" "12345" (set_session_user_id None Sample.world0)
                eq_refl eq_refl eq_refl Hnd) as (Hgood & _).
    destruct (Hgood Sample.admin (or_introl eq_refl) eq_refl eq_refl)
      as (_ & Hsession & _).
    exact Hsession.
  - destruct (login_spec Sample.check_hash
                (Sample.post [("username", "admin"); ("password", "1234")])
                "admin" "1234" (set_session_user_id None Sample.world0)
                eq_refl eq_refl eq_refl Hnd) as (_ & Hbad).
    destruct Hbad as (_ & Hsession & _); [|exact Hsession].
    intros u [<- | []] _. reflexivity.
Defined.

(** Concrete environment for the dispatcher: both categories own contacts,
    and only those of the first are texted. *)
Lemma send_sms_one_bulk_request_witness :
  let request := Sample.post [("message", "School reopens on Monday")] in
  is_authenticated Sample.world1 = true /\
  category_exists 1 (db Sample.world1) /\
  owns_contact 1 (db Sample.world1) /\
  owns_contact 2 (db Sample.world1) /\
  lookup "message" (form request) = Some "School reopens on Monday" /\
  PyStr.blank "School reopens on Monday" = false /\
  exists payload,
    outbox (snd (send_sms Sample.environ Sample.vendor_ok 1 request Sample.world1)) =
      [("https://api.mnotify.com/api/sms/quick", payload)] /\
    key payload = Some "secret-key" /\
    sender payload = Some "KENLORD" /\
    message payload = Some "School reopens on Monday" /\
    recipient payload = ["0241000001"; "0241000002"].
Proof.
  cbv zeta.
  assert (He : category_exists 1 (db Sample.world1)).
  { exists (Category.Build 1 "Parents"). simpl. auto. }
  assert (Ho1 : owns_contact 1 (db Sample.world1)).
  { exists (Contact.Build 1 "Ama" "0241000001" 1). simpl. auto. }
  assert (Ho2 : owns_contact 2 (db Sample.world1)).
  { exists (Contact.Build 3 "Esi" "0241000003" 2). simpl. auto. }
  split; [reflexivity | split; [exact He | split; [exact Ho1 | split; [exact Ho2 |]]]].
  split; [reflexivity | split; [reflexivity |]].
  destruct (send_sms_one_bulk_request Sample.environ Sample.vendor_ok 1
              (Sample.post [("message", "School reopens on Monday")])
              "School reopens on Monday" Sample.world1 eq_refl He Ho1 eq_refl eq_refl)
    as (payload & Hout & Hkey & Hsender & Hmessage & Hrecipient & _).
  exists payload.
  split; [exact Hout | split; [exact Hkey | split; [exact Hsender |]]].
  split; [exact Hmessage | exact Hrecipient].
Defined.

Lemma send_sms_no_contacts_witness :
  let request := Sample.post [("message", "School reopens on Monday")] in
  is_authenticated Sample.world0 = true /\
  category_exists 2 (db Sample.world0) /\
  contacts_of 2 (db Sample.world0) = [] /\
  lookup "message" (form request) = Some "School reopens on Monday" /\
  PyStr.blank "School reopens on Monday" = false /\
  outbox (snd (send_sms Sample.environ Sample.vendor_ok 2 request Sample.world0)) = [] /\
  flashes (snd (send_sms Sample.environ Sample.vendor_ok 2 request Sample.world0)) =
    [("No contacts found in this category!", "danger")].
Proof.
  cbv zeta.
  assert (He : category_exists 2 (db Sample.world0)).
  { exists (Category.Build 2 "Staff"). simpl. auto. }
  split; [reflexivity | split; [exact He | split; [reflexivity |]]].
  split; [reflexivity | split; [reflexivity |]].
  destruct (send_sms_no_contacts Sample.environ Sample.vendor_ok 2
              (Sample.post [("message", "School reopens on Monday")])
              "School reopens on Monday" Sample.world0 eq_refl He eq_refl
              eq_refl eq_refl) as (_ & Hout & _ & Hfl).
  split; [exact Hout | exact Hfl].
Defined.

Lemma send_sms_vendor_outcomes_witness :
  let request := Sample.post [("message", "School reopens on Monday")] in
  is_authenticated Sample.world0 = true /\
  category_exists 1 (db Sample.world0) /\
  contacts_of 1 (db Sample.world0) <> [] /\
  lookup "message" (form request) = Some "School reopens on Monday" /\
  PyStr.blank "School reopens on Monday" = false /\
  fst (send_sms Sample.environ Sample.vendor_down 1 request Sample.world0) =
    Return (redirect (url_for_view_contacts 1)) /\
  flashes (snd (send_sms Sample.environ Sample.vendor_rejects 1 request
                         Sample.world0)) =
    [("Failed to send SMS: invalid key", "danger")].
Proof.
  cbv zeta.
  assert (He : category_exists 1 (db Sample.world0)).
  { exists (Category.Build 1 "Parents"). simpl. auto. }
  assert (Hc : contacts_of 1 (db Sample.world0) <> []) by discriminate.
  split; [reflexivity | split; [exact He | split; [exact Hc |]]].
  split; [reflexivity | split; [reflexivity |]].
  split.
  - destruct (send_sms_vendor_outcomes Sample.environ Sample.vendor_down 1
                (Sample.post [("message", "School reopens on Monday")])
                "School reopens on Monday" Sample.world0 eq_refl He Hc
                eq_refl eq_refl) as (Hret & _).
    exact Hret.
  - destruct (send_sms_vendor_outcomes Sample.environ Sample.vendor_rejects 1
                (Sample.post [("message", "School reopens on Monday")])
                "School reopens on Monday" Sample.world0 eq_refl He Hc
                eq_refl eq_refl) as (_ & _ & Hfl).
    cbn in Hfl. destruct Hfl as (_ & Hrej). apply Hrej. discriminate.
Defined.

(* ===================================================================== *)
(** ** The import loop, in general                                        *)
(* ===================================================================== *)

Lemma flush_new_contacts (cid : Z) (news : list (string * string)) (d : Database) :
  flush (map (fun np => NewContact (PyStr (fst np)) (PyStr (snd np)) cid) news) d =
    Return (with_contacts (insert_contacts cid news (contacts d)) d).
Proof.
  revert d. induction news as [|[n p] news IH]; intros d.
  - destruct d; reflexivity.
  - cbn [map flush fst snd]. cbn [flush_one bind_param]. rewrite IH.
    reflexivity.
Qed.

Lemma insert_contacts_length (cid : Z) (news : list (string * string))
  (l : list Contact.t) :
  List.length (insert_contacts cid news l) = (List.length l + List.length news)%nat.
Proof.
  revert l. induction news as [|[n p] news IH]; intros l; cbn.
  - lia.
  - rewrite IH, length_app. cbn. lia.
Qed.

Lemma upload_loop (df : DataFrame) (cid : Z) (rs : list (list pyval)) (w : World) :
  in_columns "Phone" df = true ->
  in_columns "Name" df = true ->
  Forall (named_row df) rs ->
  for_each rs (fun row =>
    if in_columns "Phone" df then
      cell <- row_getitem df row "Phone" ;;
      name <- (if in_columns "Name" df
               then row_getitem df row "Name"
               else ret PyNone) ;;
      session_register (NewContact name (PyStr (str cell)) cid)
    else ret tt) w =
  (Return tt,
   set_pending
     (pending w ++
      map (fun np => NewContact (PyStr (fst np)) (PyStr (snd np)) cid)
          (map (row_fields df) rs)) w).
Proof.
  intros Hphone Hname. rewrite Hphone, Hname. revert w.
  induction rs as [|row rs IH]; intros w Hrows.
  - cbn. rewrite app_nil_r. destruct w; reflexivity.
  - apply Forall_cons_iff in Hrows as [((n & Hn) & (v & Hv)) Hrows].
    cbn [for_each]. unfold bind at 1. unfold bind at 1.
    unfold row_getitem at 1. rewrite Hv. unfold ret at 1.
    unfold bind at 1. unfold row_getitem at 1. rewrite Hn. unfold ret at 1.
    unfold session_register at 1. rewrite (IH _ Hrows).
    assert (Hrf : row_fields df row = (n, str v)).
    { unfold row_fields. rewrite Hn, Hv. reflexivity. }
    unfold set_pending. cbn [pending db flashes session_user_id outbox map].
    rewrite Hrf. cbn [fst snd]. rewrite <- app_assoc. reflexivity.
Qed.

Lemma upload_contacts_run
  (category_id : Z) (request : Request) (file : FileStorage) (df : DataFrame)
  (w : World) :
  is_authenticated w = true ->
  fresh_session w ->
  category_exists category_id (db w) ->
  lookup "file" (files request) = Some file ->
  PyStr.truthy (filename file) = true ->
  content file = Workbook df ->
  in_columns "Phone" df = true ->
  in_columns "Name" df = true ->
  Forall (named_row df) (rows df) ->
  upload_contacts category_id request w =
    (Return (redirect (url_for_view_contacts category_id)),
     set_flashes (flashes w ++ [("Contacts uploaded successfully!", "success")])
       (set_pending []
          (set_db (with_contacts
                     (insert_contacts category_id
                        (map (row_fields df) (rows df)) (contacts (db w)))
                     (db w)) w))).
Proof.
  intros Hauth Hfresh Hex Hfile Hname Hcontent Hphone Hnamecol Hrows.
  unfold fresh_session in Hfresh.
  unfold upload_contacts. rewrite (login_required_authenticated _ w Hauth).
  destruct (category_get_exists category_id (db w) Hex) as (c & Hfind & _ & Hid).
  unfold bind at 1. unfold or_404, Category_query_get, bind at 1.
  rewrite Hfind. unfold ret at 1. unfold bind at 1, getitem. rewrite Hfile.
  unfold ret at 1. rewrite Hname. cbn [negb].
  unfold bind at 1, try_except, bind at 1, read_excel. rewrite Hcontent.
  unfold ret at 1. unfold bind at 1.
  rewrite (upload_loop df (Category.id c) (rows df) w Hphone Hnamecol Hrows).
  unfold bind at 1, commit. cbn [pending db set_pending].
  rewrite Hfresh. cbn [app]. rewrite flush_new_contacts, Hid. reflexivity.
Qed.

(** Every row of a sheet with a Phone and a Name column becomes a contact,
    whatever its Phone cell holds: the import never skips a row. *)
Lemma upload_contacts_every_row
  (category_id : Z) (request : Request) (file : FileStorage) (df : DataFrame)
  (w : World) :
  is_authenticated w = true ->
  fresh_session w ->
  category_exists category_id (db w) ->
  lookup "file" (files request) = Some file ->
  PyStr.truthy (filename file) = true ->
  content file = Workbook df ->
  in_columns "Phone" df = true ->
  in_columns "Name" df = true ->
  Forall (named_row df) (rows df) ->
  let r := upload_contacts category_id request w in
  fst r = Return (redirect (url_for_view_contacts category_id)) /\
  contacts (db (snd r)) =
    insert_contacts category_id (map (row_fields df) (rows df)) (contacts (db w)) /\
  List.length (contacts (db (snd r))) =
    (List.length (contacts (db w)) + List.length (rows df))%nat.
Proof.
  intros Hauth Hfresh Hex Hfile Hname Hcontent Hphone Hnamecol Hrows r. subst r.
  rewrite (upload_contacts_run category_id request file df w Hauth Hfresh Hex
             Hfile Hname Hcontent Hphone Hnamecol Hrows).
  cbn. split; [reflexivity|]. split; [reflexivity|].
  rewrite insert_contacts_length, length_map. reflexivity.
Qed.

(* ===================================================================== *)
(** ** The login gate, not-found and bad requests                         *)
(* ===================================================================== *)

Lemma login_required_page_authenticated (view : View Page) (w : World) :
  is_authenticated w = true -> login_required_page view w = view w.
Proof.
  unfold is_authenticated, login_required_page.
  destruct (current_user w); [reflexivity | discriminate].
Qed.

Section Protection.

Variable environ : string -> option string.
Variable vendor : string -> Payload -> PostResult.
Variable check_password_hash : string -> string -> bool.


(** The four views that start with [get_or_404] on a category stop there
    when no category has the id, before anything else is looked at, and the
    world is exactly as it was: they abort with 404 when SQLite can bind
    the id (a 64-bit integer), and the driver's OverflowError leaves the
    view when it cannot. *)
Theorem missing_category_is_404 (c : Call) (category_id : Z) (w : World) :
  category_of_call c = Some category_id ->
  is_authenticated w = true ->
  ~ category_exists category_id (db w) ->
  run environ vendor check_password_hash c w =
    (Raise (if sqlite_integer category_id
            then HTTPException 404 "Not Found"
            else OverflowError "Python int too large to convert to SQLite INTEGER"),
     w).
Proof.
  intros Hc Hauth Hmiss.
  pose proof (category_get_missing category_id (db w) Hmiss) as Hfind.
  destruct c; try discriminate Hc; cbn in Hc; injection Hc as ->; cbn [run];
    unfold as_page, view_contacts, upload_contacts, add_contact, send_sms;
    try unfold bind at 1;
    rewrite ?(login_required_authenticated _ w Hauth),
            ?(login_required_page_authenticated _ w Hauth);
    run_view; rewrite Hfind; destruct (sqlite_integer category_id); reflexivity.
Qed.

End Protection.

Lemma fresh_world_eta (w : World) :
  fresh_session w ->
  mkWorld (db w) [] (flashes w) (session_user_id w) (outbox w) = w.
Proof.
  unfold fresh_session. destruct w as [d p f u o]. cbn. intros ->. reflexivity.
Qed.

(** After a refused commit of a fresh session the world is as before. *)
Ltac rolled_back w Hfresh :=
  unfold set_pending; cbn [db pending flashes session_user_id outbox];
  rewrite (fresh_world_eta w Hfresh).

(** [request.form['name']] on a form without the field: [add_category]
    aborts with 400 before it looks at the rows. *)
Theorem add_category_missing_name (request : Request) (w : World) :
  is_authenticated w = true ->
  lookup "name" (form request) = None ->
  add_category request w = (Raise (HTTPException 400 "Bad Request"), w).
Proof.
  intros Hauth Hname. unfold add_category.
  rewrite (login_required_authenticated _ w Hauth).
  run_view. rewrite Hname. reflexivity.
Qed.

Lemma add_category_missing_name_witness :
  is_authenticated Sample.world0 = true /\
  lookup "name" (form (Sample.post [("title", "Teachers")])) = None /\
  add_category (Sample.post [("title", "Teachers")]) Sample.world0 =
    (Raise (HTTPException 400 "Bad Request"), Sample.world0).
Proof.
  split; [reflexivity | split; [reflexivity |]].
  exact (add_category_missing_name (Sample.post [("title", "Teachers")])
           Sample.world0 eq_refl eq_refl).
Defined.

(* ===================================================================== *)
(** ** Contacts: deletion and refused commits                             *)
(* ===================================================================== *)

(** [delete_contact] on a stored contact removes the rows of that id and no
    other row, flashes the success notice and redirects to the contacts of
    the category that owned the contact; on an id that is not stored it
    changes nothing and aborts with 404 when SQLite can bind the id (a
    64-bit integer), while the driver's OverflowError leaves the view when
    it cannot. *)
Theorem delete_contact_spec (contact_id : Z) (w : World) :
  is_authenticated w = true ->
  fresh_session w ->
  let r := delete_contact contact_id w in
  (contact_exists contact_id (db w) ->
     (exists c, In c (contacts (db w)) /\ Contact.id c = contact_id /\
        fst r = Return (redirect (url_for_view_contacts (Contact.category_id c)))) /\
     contacts (db (snd r)) =
       filter (fun x => negb (Contact.id x =? contact_id)) (contacts (db w)) /\
     ~ contact_exists contact_id (db (snd r)) /\
     categories (db (snd r)) = categories (db w) /\
     users (db (snd r)) = users (db w) /\
     flashes (snd r) =
       (flashes w ++ [("Contact deleted successfully!", "success")])%list) /\
  (~ contact_exists contact_id (db w) ->
     fst r =
       Raise (if sqlite_integer contact_id
              then HTTPException 404 "Not Found"
              else OverflowError "Python int too large to convert to SQLite INTEGER") /\
     snd r = w).
Proof.
  intros Hauth Hfresh r. subst r. unfold fresh_session in Hfresh.
  unfold delete_contact. rewrite (login_required_authenticated _ w Hauth).
  run_view. split.
  - intros Hex.
    destruct (contact_get_exists contact_id (db w) Hex) as (c & Hfind & Hin & Hid).
    rewrite Hfind. cbn. rewrite Hfresh. cbn. rewrite Hid.
    split; [exists c; auto|]. split; [reflexivity|].
    split; [|auto].
    intros (x & Hx & Hxid). apply filter_In in Hx as [_ Hneq].
    rewrite Hxid, Z.eqb_refl in Hneq. discriminate.
  - intros Hmiss. rewrite (contact_get_missing contact_id (db w) Hmiss).
    destruct (sqlite_integer contact_id); cbn; auto.
Qed.

Lemma delete_contact_spec_witness :
  is_authenticated Sample.world0 = true /\
  fresh_session Sample.world0 /\
  contact_exists 1 (db Sample.world0) /\
  contacts (db (snd (delete_contact 1 Sample.world0))) =
    [Contact.Build 2 "Kofi" "0241000002" 1] /\
  ~ contact_exists 9 (db Sample.world0) /\
  fst (delete_contact 9 Sample.world0) = Raise (HTTPException 404 "Not Found") /\
  ~ contact_exists (2 ^ 63) (db Sample.world0) /\
  fst (delete_contact (2 ^ 63) Sample.world0) =
    Raise (OverflowError "Python int too large to convert to SQLite INTEGER").
Proof.
  assert (Ha : is_authenticated Sample.world0 = true) by reflexivity.
  assert (Hf : fresh_session Sample.world0) by reflexivity.
  assert (He : contact_exists 1 (db Sample.world0)).
  { exists (Contact.Build 1 "Ama" "0241000001" 1). simpl. auto. }
  split; [exact Ha | split; [exact Hf | split; [exact He |]]].
  split.
  - destruct (delete_contact_spec 1 Sample.world0 Ha Hf) as (Hdel & _).
    destruct (Hdel He) as (_ & Hcontacts & _). exact Hcontacts.
  - assert (Hm : forall i, i <> 1 -> i <> 2 -> ~ contact_exists i (db Sample.world0)).
    { intros i H1 H2 (c & Hin & Hc). simpl in Hin.
      destruct Hin as [<- | [<- | []]]; simpl in Hc; congruence. }
    assert (Hm9 : ~ contact_exists 9 (db Sample.world0))
      by (apply Hm; discriminate).
    assert (Hmbig : ~ contact_exists (2 ^ 63) (db Sample.world0))
      by (apply Hm; discriminate).
    split; [exact Hm9 | split; [| split; [exact Hmbig |]]].
    + destruct (delete_contact_spec 9 Sample.world0 Ha Hf) as (_ & Hmiss).
      destruct (Hmiss Hm9) as (H404 & _). exact H404.
    + destruct (delete_contact_spec (2 ^ 63) Sample.world0 Ha Hf) as (_ & Hmiss).
      destruct (Hmiss Hmbig) as (Hbig & _). exact Hbig.
Defined.

(** Deleting a stored category that still owns a contact: the commit is
    refused, the IntegrityError leaves [delete_category], nothing is flashed
    and every row stays. *)
Theorem delete_category_owning_contacts (id : Z) (w : World) :
  is_authenticated w = true ->
  fresh_session w ->
  category_exists id (db w) ->
  contacts_of id (db w) <> [] ->
  delete_category id w =
    (Raise (IntegrityError "NOT NULL constraint failed: contact.category_id"), w).
Proof.
  intros Hauth Hfresh Hex Hown.
  unfold delete_category. rewrite (login_required_authenticated _ w Hauth).
  destruct (category_get_exists id (db w) Hex) as (c & Hfind & _ & Hid).
  run_view. rewrite Hfind. cbn. rewrite Hfresh.
  change ([] ++ [DeletedCategory c])%list with [DeletedCategory c].
  rewrite flush_deleted_category, Hid.
  destruct (contacts_of id (db w)) as [|c0 l]; [contradiction|].
  cbn. rolled_back w Hfresh. reflexivity.
Qed.

Lemma delete_category_owning_contacts_witness :
  is_authenticated Sample.world0 = true /\
  fresh_session Sample.world0 /\
  category_exists 1 (db Sample.world0) /\
  contacts_of 1 (db Sample.world0) <> [] /\
  delete_category 1 Sample.world0 =
    (Raise (IntegrityError "NOT NULL constraint failed: contact.category_id"),
     Sample.world0).
Proof.
  assert (He : category_exists 1 (db Sample.world0)).
  { exists (Category.Build 1 "Parents"). simpl. auto. }
  assert (Hc : contacts_of 1 (db Sample.world0) <> []) by discriminate.
  split; [reflexivity | split; [reflexivity | split; [exact He |]]].
  split; [exact Hc |].
  exact (delete_category_owning_contacts 1 Sample.world0 eq_refl eq_refl He Hc).
Defined.

(** [add_contact] with a phone that is not blank and no name field: the
    name is [None], the commit is refused for the NOT NULL name column, the
    IntegrityError leaves the view and no row is written. *)
Theorem add_contact_missing_name
  (category_id : Z) (request : Request) (phone : string) (w : World) :
  is_authenticated w = true ->
  fresh_session w ->
  category_exists category_id (db w) ->
  lookup "name" (form request) = None ->
  lookup "phone" (form request) = Some phone ->
  PyStr.blank phone = false ->
  add_contact category_id request w =
    (Raise (IntegrityError "NOT NULL constraint failed: contact.name"), w).
Proof.
  intros Hauth Hfresh Hex Hname Hphone Hblank.
  unfold add_contact. rewrite (login_required_authenticated _ w Hauth).
  destruct (category_get_exists category_id (db w) Hex) as (c & Hfind & _ & Hid).
  run_view. rewrite Hfind, Hname, Hphone. cbn [of_option].
  rewrite truthy_strip_blank, Hblank. cbn. rewrite Hfresh. cbn.
  rolled_back w Hfresh. reflexivity.
Qed.

Lemma add_contact_missing_name_witness :
  let request := Sample.post [("phone", "0241000003")] in
  is_authenticated Sample.world0 = true /\
  fresh_session Sample.world0 /\
  category_exists 2 (db Sample.world0) /\
  lookup "name" (form request) = None /\
  lookup "phone" (form request) = Some "0241000003" /\
  PyStr.blank "0241000003" = false /\
  add_contact 2 request Sample.world0 =
    (Raise (IntegrityError "NOT NULL constraint failed: contact.name"),
     Sample.world0).
Proof.
  cbv zeta.
  assert (He : category_exists 2 (db Sample.world0)).
  { exists (Category.Build 2 "Staff"). simpl. auto. }
  split; [reflexivity | split; [reflexivity | split; [exact He |]]].
  split; [reflexivity | split; [reflexivity | split; [reflexivity |]]].
  exact (add_contact_missing_name 2 (Sample.post [("phone", "0241000003")])
           "0241000003" Sample.world0 eq_refl eq_refl He eq_refl eq_refl eq_refl).
Defined.

(** [edit_contact] on a stored contact with the name field or the phone
    field missing from the form: the missing value is [None], the UPDATE is
    refused, the IntegrityError leaves the view and the contact keeps its
    name and phone. *)
Theorem edit_contact_missing_field
  (contact_id : Z) (request : Request) (w : World) :
  is_authenticated w = true ->
  fresh_session w ->
  contact_exists contact_id (db w) ->
  lookup "name" (form request) = None \/ lookup "phone" (form request) = None ->
  exists msg,
    edit_contact contact_id request w = (Raise (IntegrityError msg), w).
Proof.
  intros Hauth Hfresh Hex Hnone.
  unfold edit_contact. rewrite (login_required_authenticated _ w Hauth).
  destruct (contact_get_exists contact_id (db w) Hex) as (c & Hfind & _ & Hid).
  run_view. rewrite Hfind. cbn. rewrite Hfresh. cbn.
  destruct (lookup "name" (form request)) as [n|] eqn:Hn;
    destruct (lookup "phone" (form request)) as [p|] eqn:Hp; cbn.
  - destruct Hnone; discriminate.
  - rolled_back w Hfresh. eexists. reflexivity.
  - rolled_back w Hfresh. eexists. reflexivity.
  - rolled_back w Hfresh. eexists. reflexivity.
Qed.

Lemma edit_contact_missing_field_witness :
  let request := Sample.post [("name", "Kofi A.")] in
  is_authenticated Sample.world0 = true /\
  fresh_session Sample.world0 /\
  contact_exists 2 (db Sample.world0) /\
  (lookup "name" (form request) = None \/ lookup "phone" (form request) = None) /\
  exists msg,
    edit_contact 2 request Sample.world0 = (Raise (IntegrityError msg), Sample.world0).
Proof.
  cbv zeta.
  assert (He : contact_exists 2 (db Sample.world0)).
  { exists (Contact.Build 2 "Kofi" "0241000002" 1). simpl. auto. }
  split; [reflexivity | split; [reflexivity | split; [exact He |]]].
  split; [right; reflexivity |].
  exact (edit_contact_missing_field 2 (Sample.post [("name", "Kofi A.")])
           Sample.world0 eq_refl eq_refl He (or_intror eq_refl)).
Defined.

(* ===================================================================== *)
(** ** Dispatcher and gate: the remaining branches                        *)
(* ===================================================================== *)

Section Remaining.

Variable environ : string -> option string.
Variable vendor : string -> Payload -> PostResult.
Variable check_password_hash : string -> string -> bool.

(** A missing, empty or whitespace-only message: [send_sms] flashes
    "Message cannot be empty!" and redirects before it looks at the
    contacts; nothing is posted to the vendor, whatever the category owns. *)
Theorem send_sms_blank_message (category_id : Z) (request : Request) (w : World) :
  is_authenticated w = true ->
  category_exists category_id (db w) ->
  match lookup "message" (form request) with
  | Some m => PyStr.blank m = true
  | None => True
  end ->
  send_sms environ vendor category_id request w =
    (Return (redirect (url_for_view_contacts category_id)),
     set_flashes (flashes w ++ [("Message cannot be empty!", "danger")]) w).
Proof.
  intros Hauth Hex Hmsg.
  unfold send_sms. rewrite (login_required_authenticated _ w Hauth).
  destruct (category_get_exists category_id (db w) Hex) as (c & Hfind & _ & Hid).
  run_view. rewrite Hfind.
  assert (Hno : no_message (lookup "message" (form request)) = true).
  { destruct (lookup "message" (form request)) as [m|]; [|reflexivity].
    rewrite no_message_blank. exact Hmsg. }
  rewrite Hno, Hid. reflexivity.
Qed.

(** [login] on anything but a POST renders the form and does nothing else,
    whatever the request carries. *)
Theorem login_get_renders_form (request : Request) (w : World) :
  method request <> "POST" ->
  login check_password_hash request w = (Return (render_template "login.html"), w).
Proof.
  intros Hget. unfold login. apply String.eqb_neq in Hget. rewrite Hget.
  reflexivity.
Qed.

(** A POST to [login] without a username field or without a password field
    aborts with 400; no session is bound and nothing is flashed. *)
Theorem login_missing_field (request : Request) (w : World) :
  method request = "POST" ->
  lookup "username" (form request) = None \/
  lookup "password" (form request) = None ->
  login check_password_hash request w = (Raise (HTTPException 400 "Bad Request"), w).
Proof.
  intros Hpost Hnone. unfold login. rewrite Hpost. run_view.
  cbn [String.eqb Ascii.eqb Bool.eqb].
  destruct (lookup "username" (form request)) as [u|] eqn:Hu; [|reflexivity].
  destruct Hnone as [Hn | Hn]; [discriminate|]. rewrite Hn. reflexivity.
Qed.

End Remaining.

Lemma send_sms_blank_message_witness :
  let request := Sample.post [("message", "   ")] in
  is_authenticated Sample.world0 = true /\
  category_exists 1 (db Sample.world0) /\
  PyStr.blank "   " = true /\
  outbox (snd (send_sms Sample.environ Sample.vendor_ok 1 request Sample.world0)) = [].
Proof.
  cbv zeta.
  assert (He : category_exists 1 (db Sample.world0)).
  { exists (Category.Build 1 "Parents"). simpl. auto. }
  split; [reflexivity | split; [exact He | split; [reflexivity |]]].
  rewrite (send_sms_blank_message Sample.environ Sample.vendor_ok 1
             (Sample.post [("message", "   ")]) Sample.world0 eq_refl He eq_refl).
  reflexivity.
Defined.

Lemma login_get_renders_form_witness :
  method (mkRequest "GET" [] []) <> "POST" /\
  login Sample.check_hash (mkRequest "GET" [] []) Sample.world0 =
    (Return (render_template "login.html"), Sample.world0).
Proof.
  assert (Hm : method (mkRequest "GET" [] []) <> "POST") by discriminate.
  split; [exact Hm |].
  exact (login_get_renders_form Sample.check_hash (mkRequest "GET" [] [])
           Sample.world0 Hm).
Defined.

Lemma login_missing_field_witness :
  let request := Sample.post [("username", "admin")] in
  method request = "POST" /\
  (lookup "username" (form request) = None \/
   lookup "password" (form request) = None) /\
  login Sample.check_hash request Sample.world0 =
    (Raise (HTTPException 400 "Bad Request"), Sample.world0).
Proof.
  cbv zeta. split; [reflexivity | split; [right; reflexivity |]].
  exact (login_missing_field Sample.check_hash (Sample.post [("username", "admin")])
           Sample.world0 eq_refl (or_intror eq_refl)).
Defined.

(** [logout] of a logged-in user unbinds the session, so that the next
    request is anonymous, flashes "Logged out successfully!" and redirects
    to the login page; rows and outbox are untouched. *)
Theorem logout_spec (w : World) :
  is_authenticated w = true ->
  let r := logout w in
  fst r = Return (redirect url_for_login) /\
  session_user_id (snd r) = None /\
  is_authenticated (snd r) = false /\
  db (snd r) = db w /\
  outbox (snd r) = outbox w /\
  flashes (snd r) = (flashes w ++ [("Logged out successfully!", "info")])%list.
Proof.
  intros Hauth r. subst r. unfold logout.
  rewrite (login_required_authenticated _ w Hauth). repeat split.
Qed.

Lemma logout_spec_witness :
  is_authenticated Sample.world0 = true /\
  session_user_id (snd (logout Sample.world0)) = None.
Proof.
  split; [reflexivity |].
  destruct (logout_spec Sample.world0 eq_refl) as (_ & Hsession & _).
  exact Hsession.
Defined.

(** [view_contacts] on a stored category renders contacts.html with a stored
    category of the requested id and changes nothing. *)
Theorem view_contacts_renders (category_id : Z) (w : World) :
  is_authenticated w = true ->
  category_exists category_id (db w) ->
  exists c,
    In c (categories (db w)) /\ Category.id c = category_id /\
    view_contacts category_id w =
      (Return (page_rendered "contacts.html" (ctx_category c)), w).
Proof.
  intros Hauth Hex.
  destruct (category_get_exists category_id (db w) Hex) as (c & Hfind & Hin & Hid).
  exists c. split; [exact Hin | split; [exact Hid |]].
  unfold view_contacts. rewrite (login_required_page_authenticated _ w Hauth).
  run_view. rewrite Hfind. reflexivity.
Qed.

Lemma view_contacts_renders_witness :
  is_authenticated Sample.world0 = true /\
  category_exists 2 (db Sample.world0) /\
  exists c,
    In c (categories (db Sample.world0)) /\ Category.id c = 2 /\
    view_contacts 2 Sample.world0 =
      (Return (page_rendered "contacts.html" (ctx_category c)), Sample.world0).
Proof.
  assert (He : category_exists 2 (db Sample.world0)).
  { exists (Category.Build 2 "Staff"). simpl. auto. }
  split; [reflexivity | split; [exact He |]].
  exact (view_contacts_renders 2 Sample.world0 eq_refl He).
Defined.

(* ===================================================================== *)
(** ** The import: every branch                                           *)
(* ===================================================================== *)

Lemma flush_all_new (cid : Z) (ps : list Pending) (d d' : Database) :
  Forall (new_contact_of cid) ps ->
  flush ps d = Return d' ->
  exists news,
    List.length news = List.length ps /\
    d' = with_contacts (insert_contacts cid news (contacts d)) d.
Proof.
  intros Hall. revert d. induction Hall as [|p ps (vn & vp & ->) _ IH]; intros d Hflush.
  - cbn in Hflush. injection Hflush as <-. exists []. split; [reflexivity|].
    destruct d; reflexivity.
  - cbn [flush flush_one] in Hflush.
    destruct (bind_param vn) as [n|]; [|discriminate].
    destruct (bind_param vp) as [p|]; [|discriminate].
    destruct (IH _ Hflush) as (news & Hlen & ->).
    exists ((n, p) :: news). split; [cbn; lia | reflexivity].
Qed.

(** The loop only registers new contacts of the category, whether it runs
    to its end or a row raises; when it runs to its end over a sheet with a
    Phone column, it has registered one per row. *)
Lemma import_loop (df : DataFrame) (cid : Z) (rs : list (list pyval)) (w : World) :
  exists ps,
    snd (for_each rs (import_row df cid) w) = set_pending (pending w ++ ps) w /\
    Forall (new_contact_of cid) ps /\
    (in_columns "Phone" df = false -> for_each rs (import_row df cid) w = (Return tt, w)) /\
    (in_columns "Phone" df = true ->
     fst (for_each rs (import_row df cid) w) = Return tt ->
     List.length ps = List.length rs).
Proof.
  revert w. induction rs as [|row rs IH]; intros w.
  - exists []. cbn. rewrite app_nil_r. destruct w; cbn. auto.
  - cbn [for_each]. unfold bind.
    destruct (import_row df cid row w) as [r1 w1] eqn:Hrow.
    assert (Hstep :
      (r1 = Return tt /\ in_columns "Phone" df = false /\ w1 = w) \/
      (exists e, r1 = Raise e /\ in_columns "Phone" df = true /\ w1 = w) \/
      (exists vn vp, r1 = Return tt /\ in_columns "Phone" df = true /\
         w1 = set_pending (pending w ++ [NewContact vn vp cid]) w)).
    { unfold import_row in Hrow. destruct (in_columns "Phone" df).
      - right. revert Hrow. unfold bind at 1, row_getitem at 1.
        destruct (series_lookup (columns df) row "Phone") as [v|].
        + unfold ret at 1, bind at 1.
          destruct (in_columns "Name" df).
          * unfold row_getitem at 1.
            destruct (series_lookup (columns df) row "Name") as [nv|].
            -- unfold ret at 1, session_register. intros [= <- <-].
               right. eauto.
            -- unfold raise. intros [= <- <-]. left. eauto.
          * unfold ret at 1, session_register. intros [= <- <-]. right. eauto.
        + unfold raise. intros [= <- <-]. left. eauto.
      - left. injection Hrow as <- <-. auto. }
    destruct Hstep as [(-> & Hno & ->) | [(e & -> & Hyes & ->) | (vn & vp & -> & Hyes & ->)]].
    + destruct (IH w) as (ps & Hsnd & Hall & Hnone & Hlen).
      exists ps. split; [exact Hsnd | split; [exact Hall | split]].
      * intros _. exact (Hnone Hno).
      * intros H. rewrite Hno in H. discriminate.
    + exists []. cbn. rewrite app_nil_r.
      split; [destruct w; reflexivity | split; [constructor | split]].
      * intros H. rewrite Hyes in H. discriminate.
      * discriminate.
    + destruct (IH (set_pending (pending w ++ [NewContact vn vp cid]) w))
        as (ps & Hsnd & Hall & _ & Hlen).
      exists (NewContact vn vp cid :: ps).
      split; [|split; [|split]].
      * rewrite Hsnd. unfold set_pending. cbn. rewrite <- app_assoc. reflexivity.
      * constructor; [exists vn, vp; reflexivity | exact Hall].
      * intros H. rewrite Hyes in H. discriminate.
      * intros _ Hret. cbn. f_equal. exact (Hlen Hyes Hret).
Qed.

(** [upload_contacts] with the loop body named. *)
Lemma upload_contacts_unfold (category_id : Z) (request : Request) (w : World) :
  upload_contacts category_id request w =
  login_required (
    category <- or_404 (Category_query_get category_id) ;;
    file <- getitem (files request) "file" ;;
    if negb (PyStr.truthy (filename file)) then
      flash "No file selected!" "danger" ;;
      ret (redirect (url_for_view_contacts category_id))
    else
      try_except
        (df <- read_excel file ;;
         for_each (rows df) (import_row df (Category.id category)) ;;
         commit ;;
         flash "Contacts uploaded successfully!" "success")
        (fun e =>
           flash ("Error uploading contacts: " ++ str_exc e) "danger") ;;
      ret (redirect (url_for_view_contacts category_id))) w.
Proof. reflexivity. Qed.

Lemma upload_contacts_outcome
  (category_id : Z) (request : Request) (file : FileStorage) (w : World) :
  is_authenticated w = true ->
  fresh_session w ->
  category_exists category_id (db w) ->
  lookup "file" (files request) = Some file ->
  let r := upload_contacts category_id request w in
  fst r = Return (redirect (url_for_view_contacts category_id)) /\
  (exists msg category, flashes (snd r) = (flashes w ++ [(msg, category)])%list) /\
  outbox (snd r) = outbox w /\
  session_user_id (snd r) = session_user_id w /\
  (db (snd r) = db w \/
   exists df news,
     content file = Workbook df /\
     in_columns "Phone" df = true /\
     List.length news = List.length (rows df) /\
     db (snd r) =
       with_contacts (insert_contacts category_id news (contacts (db w))) (db w)).
Proof.
  intros Hauth Hfresh Hex Hfile r. subst r. unfold fresh_session in Hfresh.
  destruct (upload_contacts category_id request w) as [res w'] eqn:Hrun.
  cbn [fst snd]. revert Hrun.
  rewrite upload_contacts_unfold, (login_required_authenticated _ w Hauth).
  destruct (category_get_exists category_id (db w) Hex) as (c & Hfind & _ & Hid).
  unfold bind at 1. unfold or_404, Category_query_get, bind at 1.
  rewrite Hfind. unfold ret at 1. unfold bind at 1, getitem. rewrite Hfile.
  unfold ret at 1.
  destruct (PyStr.truthy (filename file)); cbn [negb].
  2:{ cbn. intros [= <- <-]. cbn. split; [reflexivity|]. split; [eauto|]. auto. }
  unfold bind at 1, try_except, bind at 1, read_excel.
  destruct (content file) as [df | e] eqn:Hcontent.
  2:{ cbn. intros [= <- <-]. cbn. split; [reflexivity|]. split; [eauto|]. auto. }
  unfold ret at 1. unfold bind at 1.
  destruct (import_loop df (Category.id c) (rows df) w)
    as (ps & Hsnd & Hall & Hnone & Hlen).
  destruct (for_each (rows df) (import_row df (Category.id c)) w) as [r1 w1] eqn:Hloop.
  cbn [snd fst] in Hsnd, Hlen. subst w1.
  destruct r1 as [[] | e].
  2:{ cbn. intros [= <- <-]. cbn. split; [reflexivity|]. split; [eauto|]. auto. }
  unfold bind at 1, commit. cbn [pending db set_pending].
  rewrite Hfresh. cbn [app].
  destruct (flush ps (db w)) as [d' | e] eqn:Hflush.
  2:{ cbn. intros [= <- <-]. cbn. split; [reflexivity|]. split; [eauto|]. auto. }
  cbn. intros [= <- <-]. cbn.
  split; [reflexivity|]. split; [eauto|]. split; [reflexivity|].
  split; [reflexivity|].
  destruct (flush_all_new (Category.id c) ps (db w) d' Hall Hflush)
    as (news & Hnews & ->).
  destruct (in_columns "Phone" df) eqn:Hphone.
  - right. exists df, news. rewrite <- Hid.
    split; [reflexivity | split; [exact Hphone | split; [|reflexivity]]].
    rewrite Hnews. exact (Hlen eq_refl eq_refl).
  - left. specialize (Hnone eq_refl). injection Hnone as Hw.
    assert (Hps : ps = []).
    { apply (f_equal pending) in Hw. cbn in Hw. rewrite Hfresh in Hw.
      exact Hw. }
    subst ps. destruct news; [|discriminate Hnews].
    destruct (db w); reflexivity.
Qed.

(** On a stored category and a request that carries a file, once the file
    is saved (the saving itself is not part of the model), [upload_contacts]
    does not raise: whatever parsing, the loop or the commit does, it
    answers with the redirect to the category's contacts and flashes exactly
    one notice.  The import is all or nothing: either no row of the store
    has changed, or the sheet has a Phone column and exactly one contact per
    row of the sheet has been added to the category. *)
Theorem upload_contacts_all_or_nothing
  (category_id : Z) (request : Request) (file : FileStorage) (w : World) :
  is_authenticated w = true ->
  fresh_session w ->
  category_exists category_id (db w) ->
  lookup "file" (files request) = Some file ->
  let r := upload_contacts category_id request w in
  fst r = Return (redirect (url_for_view_contacts category_id)) /\
  (exists msg category, flashes (snd r) = (flashes w ++ [(msg, category)])%list) /\
  outbox (snd r) = outbox w /\
  session_user_id (snd r) = session_user_id w /\
  (db (snd r) = db w \/
   exists df news,
     content file = Workbook df /\
     in_columns "Phone" df = true /\
     List.length news = List.length (rows df) /\
     db (snd r) =
       with_contacts (insert_contacts category_id news (contacts (db w))) (db w)).
Proof.
  intros Hauth Hfresh Hex Hfile.
  exact (upload_contacts_outcome category_id request file w Hauth Hfresh Hex Hfile).
Qed.

Lemma upload_contacts_all_or_nothing_witness :
  is_authenticated Sample.world0 = true /\
  fresh_session Sample.world0 /\
  category_exists 2 (db Sample.world0) /\
  lookup "file" (files (Sample.upload Sample.sheet3)) =
    Some (mkFileStorage "contacts.xlsx" (Workbook Sample.sheet3)) /\
  fst (upload_contacts 2 (Sample.upload Sample.sheet3) Sample.world0) =
    Return (redirect (url_for_view_contacts 2)).
Proof.
  assert (He : category_exists 2 (db Sample.world0)).
  { exists (Category.Build 2 "Staff"). simpl. auto. }
  split; [reflexivity | split; [reflexivity | split; [exact He |]]].
  split; [reflexivity |].
  destruct (upload_contacts_all_or_nothing 2 (Sample.upload Sample.sheet3)
              (mkFileStorage "contacts.xlsx" (Workbook Sample.sheet3))
              Sample.world0 eq_refl eq_refl He eq_refl) as (Hret & _).
  exact Hret.
Defined.

(** A sheet without a Phone column imports nothing and still reports
    success: no row is written and "Contacts uploaded successfully!" is
    flashed. *)
Theorem upload_contacts_without_phone_column
  (category_id : Z) (request : Request) (file : FileStorage) (df : DataFrame)
  (w : World) :
  is_authenticated w = true ->
  fresh_session w ->
  category_exists category_id (db w) ->
  lookup "file" (files request) = Some file ->
  PyStr.truthy (filename file) = true ->
  content file = Workbook df ->
  in_columns "Phone" df = false ->
  upload_contacts category_id request w =
    (Return (redirect (url_for_view_contacts category_id)),
     set_flashes (flashes w ++ [("Contacts uploaded successfully!", "success")]) w).
Proof.
  intros Hauth Hfresh Hex Hfile Hname Hcontent Hphone.
  rewrite upload_contacts_unfold, (login_required_authenticated _ w Hauth).
  destruct (category_get_exists category_id (db w) Hex) as (c & Hfind & _ & Hid).
  unfold bind at 1. unfold or_404, Category_query_get, bind at 1.
  rewrite Hfind. unfold ret at 1. unfold bind at 1, getitem. rewrite Hfile.
  unfold ret at 1. rewrite Hname. cbn [negb].
  unfold bind at 1, try_except, bind at 1, read_excel. rewrite Hcontent.
  unfold ret at 1. unfold bind at 1.
  destruct (import_loop df (Category.id c) (rows df) w) as (_ & _ & _ & Hnone & _).
  rewrite (Hnone Hphone). unfold bind at 1, commit. rewrite Hfresh.
  clear - Hfresh. unfold fresh_session in Hfresh.
  destruct w as [[cs ks us] p f u o]. cbn in Hfresh. subst p. reflexivity.
Qed.

Lemma upload_contacts_without_phone_column_witness :
  let df := mkDataFrame ["Name"; "Mobile"] [[PyStr "A"; PyStr "123"]] in
  is_authenticated Sample.world0 = true /\
  fresh_session Sample.world0 /\
  category_exists 2 (db Sample.world0) /\
  lookup "file" (files (Sample.upload df)) =
    Some (mkFileStorage "contacts.xlsx" (Workbook df)) /\
  in_columns "Phone" df = false /\
  upload_contacts 2 (Sample.upload df) Sample.world0 =
    (Return (redirect (url_for_view_contacts 2)),
     set_flashes [("Contacts uploaded successfully!", "success")] Sample.world0).
Proof.
  cbv zeta.
  assert (He : category_exists 2 (db Sample.world0)).
  { exists (Category.Build 2 "Staff"). simpl. auto. }
  split; [reflexivity | split; [reflexivity | split; [exact He |]]].
  split; [reflexivity | split; [reflexivity |]].
  exact (upload_contacts_without_phone_column 2
           (Sample.upload (mkDataFrame ["Name"; "Mobile"] [[PyStr "A"; PyStr "123"]]))
           (mkFileStorage "contacts.xlsx"
              (Workbook (mkDataFrame ["Name"; "Mobile"] [[PyStr "A"; PyStr "123"]])))
           (mkDataFrame ["Name"; "Mobile"] [[PyStr "A"; PyStr "123"]])
           Sample.world0 eq_refl eq_refl He eq_refl eq_refl eq_refl eq_refl).
Defined.

(** A file that [pd.read_excel] cannot read: the exception is caught, its
    text is flashed after "Error uploading contacts: " under "danger", the
    view redirects and nothing else changes. *)
Theorem upload_contacts_unreadable
  (category_id : Z) (request : Request) (file : FileStorage) (e : Exception)
  (w : World) :
  is_authenticated w = true ->
  category_exists category_id (db w) ->
  lookup "file" (files request) = Some file ->
  PyStr.truthy (filename file) = true ->
  content file = Unreadable e ->
  upload_contacts category_id request w =
    (Return (redirect (url_for_view_contacts category_id)),
     set_flashes
       (flashes w ++ [(("Error uploading contacts: " ++ str_exc e)%string, "danger")])
       w).
Proof.
  intros Hauth Hex Hfile Hname Hcontent.
  rewrite upload_contacts_unfold, (login_required_authenticated _ w Hauth).
  destruct (category_get_exists category_id (db w) Hex) as (c & Hfind & _ & Hid).
  run_view. unfold read_excel. rewrite Hfind, Hfile, Hname, Hcontent. reflexivity.
Qed.

Lemma upload_contacts_unreadable_witness :
  let file := mkFileStorage "notes.txt"
                (Unreadable (OtherException "File is not a zip file")) in
  let request := mkRequest "POST" [] [("file", file)] in
  is_authenticated Sample.world0 = true /\
  category_exists 2 (db Sample.world0) /\
  lookup "file" (files request) = Some file /\
  PyStr.truthy (filename file) = true /\
  flashes (snd (upload_contacts 2 request Sample.world0)) =
    [("Error uploading contacts: File is not a zip file", "danger")].
Proof.
  cbv zeta.
  assert (He : category_exists 2 (db Sample.world0)).
  { exists (Category.Build 2 "Staff"). simpl. auto. }
  split; [reflexivity | split; [exact He | split; [reflexivity |]]].
  split; [reflexivity |].
  rewrite (upload_contacts_unreadable 2
             (mkRequest "POST" []
                [("file", mkFileStorage "notes.txt"
                            (Unreadable (OtherException "File is not a zip file")))])
             (mkFileStorage "notes.txt"
                (Unreadable (OtherException "File is not a zip file")))
             (OtherException "File is not a zip file")
             Sample.world0 eq_refl He eq_refl eq_refl eq_refl).
  reflexivity.
Defined.

(** A file part with an empty filename (the browser's answer when no file
    was chosen) flashes "No file selected!" and the content is never parsed;
    a request with no file part at all aborts with 400. *)
Theorem upload_contacts_no_file
  (category_id : Z) (request : Request) (w : World) :
  is_authenticated w = true ->
  category_exists category_id (db w) ->
  (forall file, lookup "file" (files request) = Some file ->
     filename file = "" ->
     upload_contacts category_id request w =
       (Return (redirect (url_for_view_contacts category_id)),
        set_flashes (flashes w ++ [("No file selected!", "danger")]) w)) /\
  (lookup "file" (files request) = None ->
     upload_contacts category_id request w =
       (Raise (HTTPException 400 "Bad Request"), w)).
Proof.
  intros Hauth Hex.
  destruct (category_get_exists category_id (db w) Hex) as (c & Hfind & _ & Hid).
  split.
  - intros file Hfile Hname.
    rewrite upload_contacts_unfold, (login_required_authenticated _ w Hauth).
    run_view. rewrite Hfind, Hfile, Hname. reflexivity.
  - intros Hfile.
    rewrite upload_contacts_unfold, (login_required_authenticated _ w Hauth).
    run_view. rewrite Hfind, Hfile. reflexivity.
Qed.

Lemma upload_contacts_no_file_witness :
  is_authenticated Sample.world0 = true /\
  category_exists 2 (db Sample.world0) /\
  upload_contacts 2 (Sample.post []) Sample.world0 =
    (Raise (HTTPException 400 "Bad Request"), Sample.world0) /\
  flashes (snd (upload_contacts 2
    (mkRequest "POST" [] [("file", mkFileStorage "" (Workbook Sample.sheet2))])
    Sample.world0)) = [("No file selected!", "danger")].
Proof.
  assert (He : category_exists 2 (db Sample.world0)).
  { exists (Category.Build 2 "Staff"). simpl. auto. }
  split; [reflexivity | split; [exact He |]]. split.
  - destruct (upload_contacts_no_file 2 (Sample.post []) Sample.world0 eq_refl He)
      as (_ & Hnone).
    exact (Hnone eq_refl).
  - destruct (upload_contacts_no_file 2
                (mkRequest "POST" [] [("file", mkFileStorage "" (Workbook Sample.sheet2))])
                Sample.world0 eq_refl He) as (Hempty & _).
    rewrite (Hempty (mkFileStorage "" (Workbook Sample.sheet2)) eq_refl eq_refl).
    reflexivity.
Defined.


Lemma missing_category_is_404_witness :
  let c := call_send_sms 7 (Sample.post [("message", "hello")]) in
  category_of_call c = Some 7 /\
  is_authenticated Sample.world0 = true /\
  ~ category_exists 7 (db Sample.world0) /\
  run Sample.environ Sample.vendor_ok Sample.check_hash c Sample.world0 =
    (Raise NotFound, Sample.world0).
Proof.
  cbv zeta.
  assert (Hm : ~ category_exists 7 (db Sample.world0)).
  { intros (c & Hin & Hc). simpl in Hin.
    destruct Hin as [<- | [<- | []]]; discriminate. }
  split; [reflexivity | split; [reflexivity | split; [exact Hm |]]].
  exact (missing_category_is_404 Sample.environ Sample.vendor_ok Sample.check_hash
           (call_send_sms 7 (Sample.post [("message", "hello")])) 7
           Sample.world0 eq_refl eq_refl Hm).
Defined.

(* ===================================================================== *)
(** ** What a request can do to the rows                                  *)
(* ===================================================================== *)

Lemma as_page_snd (view : View Response) (w : World) :
  snd (as_page view w) = snd (view w).
Proof.
  unfold as_page, bind, ret. destruct (view w) as [[r | e] w']; reflexivity.
Qed.

(** Nothing but, at most, a notice. *)
Ltac no_change := split; [apply t_none | split; reflexivity].

Lemma add_category_transition (request : Request) (w : World) :
  fresh_session w ->
  Effect w (snd (add_category request w)).
Proof.
  intros Hfresh. unfold fresh_session in Hfresh. unfold add_category.
  destruct (is_authenticated w) eqn:Hauth;
    [rewrite (login_required_authenticated _ w Hauth)
    |rewrite (login_required_anonymous _ w Hauth); no_change].
  run_view. destruct (lookup "name" (form request)) as [name|]; [|no_change].
  cbn. destruct (PyStr.strip name =? "")%string; [no_change|].
  destruct (find _ (categories (db w))) as [c|] eqn:Hfind; [no_change|].
  assert (Hnot : ~ category_named name (db w)).
  { intros (c & Hin & Hn).
    pose proof (find_none _ _ Hfind c Hin) as Hc. cbn in Hc.
    apply String.eqb_neq in Hc. contradiction. }
  destruct (category_unnamed_find name (db w) Hnot) as [_ Hex].
  cbn. rewrite Hfresh. cbn. rewrite Hex. cbn.
  split; [exact (t_new_category (db w) name Hnot) | split; reflexivity].
Qed.

Lemma delete_category_transition (id : Z) (w : World) :
  fresh_session w ->
  Effect w (snd (delete_category id w)).
Proof.
  intros Hfresh. unfold fresh_session in Hfresh. unfold delete_category.
  destruct (is_authenticated w) eqn:Hauth;
    [rewrite (login_required_authenticated _ w Hauth)
    |rewrite (login_required_anonymous _ w Hauth); no_change].
  run_view. destruct (find _ (categories (db w))) as [c|] eqn:Hfind; 
    [|destruct (sqlite_integer _); no_change].
  apply find_some in Hfind as [_ Hid]. apply Z.eqb_eq in Hid.
  cbn. rewrite Hfresh.
  change ([] ++ [DeletedCategory c])%list with [DeletedCategory c].
  rewrite flush_deleted_category, Hid.
  destruct (contacts_of id (db w)) as [|c0 l] eqn:Hown; cbn.
  - split; [exact (t_deleted_category (db w) id Hown) | split; reflexivity].
  - no_change.
Qed.

Lemma add_contact_transition (category_id : Z) (request : Request) (w : World) :
  fresh_session w ->
  Effect w (snd (add_contact category_id request w)).
Proof.
  intros Hfresh. unfold fresh_session in Hfresh. unfold add_contact.
  destruct (is_authenticated w) eqn:Hauth;
    [rewrite (login_required_authenticated _ w Hauth)
    |rewrite (login_required_anonymous _ w Hauth); no_change].
  run_view. destruct (find _ (categories (db w))) as [c|] eqn:Hfind; 
    [|destruct (sqlite_integer _); no_change].
  apply find_some in Hfind as [Hin Hid]. apply Z.eqb_eq in Hid.
  destruct (lookup "phone" (form request)) as [phone|]; [|no_change].
  cbn. destruct (PyStr.truthy (PyStr.strip phone)); cbn; [|no_change].
  rewrite Hfresh. cbn.
  destruct (lookup "name" (form request)) as [name|]; cbn; [|no_change].
  split; [|split; reflexivity].
  apply (t_new_contacts (db w) (Category.id c) [(name, phone)]).
  exists c. auto.
Qed.

Lemma edit_contact_transition (contact_id : Z) (request : Request) (w : World) :
  fresh_session w ->
  Effect w (snd (edit_contact contact_id request w)).
Proof.
  intros Hfresh. unfold fresh_session in Hfresh. unfold edit_contact.
  destruct (is_authenticated w) eqn:Hauth;
    [rewrite (login_required_authenticated _ w Hauth)
    |rewrite (login_required_anonymous _ w Hauth); no_change].
  run_view. destruct (find _ (contacts (db w))) as [c|] eqn:Hfind; 
    [|destruct (sqlite_integer _); no_change].
  cbn. rewrite Hfresh. cbn.
  destruct (lookup "name" (form request)) as [name|]; cbn; [|no_change].
  destruct (lookup "phone" (form request)) as [phone|]; cbn; [|no_change].
  split; [apply t_edited_contact | split; reflexivity].
Qed.

Lemma delete_contact_transition (contact_id : Z) (w : World) :
  fresh_session w ->
  Effect w (snd (delete_contact contact_id w)).
Proof.
  intros Hfresh. unfold fresh_session in Hfresh. unfold delete_contact.
  destruct (is_authenticated w) eqn:Hauth;
    [rewrite (login_required_authenticated _ w Hauth)
    |rewrite (login_required_anonymous _ w Hauth); no_change].
  run_view. destruct (find _ (contacts (db w))) as [c|] eqn:Hfind; 
    [|destruct (sqlite_integer _); no_change].
  cbn. rewrite Hfresh. cbn. split; [apply t_deleted_contact | split; reflexivity].
Qed.

Lemma upload_contacts_transition (category_id : Z) (request : Request) (w : World) :
  fresh_session w ->
  Effect w (snd (upload_contacts category_id request w)).
Proof.
  intros Hfresh.
  destruct (is_authenticated w) eqn:Hauth.
  2:{ unfold upload_contacts. rewrite (login_required_anonymous _ w Hauth).
      no_change. }
  destruct (find (fun c => Category.id c =? category_id) (categories (db w)))
    as [c|] eqn:Hfind.
  2:{ unfold upload_contacts. rewrite (login_required_authenticated _ w Hauth).
      run_view. rewrite Hfind. destruct (sqlite_integer _); no_change. }
  assert (Hex : category_exists category_id (db w)).
  { apply find_some in Hfind as [Hin Hid]. apply Z.eqb_eq in Hid. exists c. auto. }
  destruct (lookup "file" (files request)) as [file|] eqn:Hfile.
  2:{ unfold upload_contacts. rewrite (login_required_authenticated _ w Hauth).
      run_view. rewrite Hfind, Hfile. no_change. }
  destruct (upload_contacts_outcome category_id request file w
              Hauth Hfresh Hex Hfile) as (_ & _ & Hout & Hses & [Hdb | Hdone]).
  - split; [rewrite Hdb; apply t_none | split; [exact Hout | exact Hses]].
  - destruct Hdone as (df & news & _ & _ & _ & Hdb).
    split; [|split; [exact Hout | exact Hses]].
    rewrite Hdb. exact (t_new_contacts (db w) category_id news Hex).
Qed.

(* ===================================================================== *)
(** ** The schema constraints are kept                                    *)
(* ===================================================================== *)

Lemma next_id_above (ids : list Z) (x : Z) : In x ids -> x < next_id ids.
Proof.
  unfold next_id. induction ids as [|a ids IH]; intros Hin; [destruct Hin|].
  cbn [fold_right]. destruct Hin as [-> | Hin].
  - lia.
  - specialize (IH Hin). lia.
Qed.

Lemma next_id_fresh (ids : list Z) : ~ In (next_id ids) ids.
Proof. intros Hin. apply next_id_above in Hin. lia. Qed.

Lemma NoDup_snoc {A} (l : list A) (x : A) :
  NoDup l -> ~ In x l -> NoDup (l ++ [x]).
Proof.
  intros Hnd Hx. induction Hnd as [|a l Ha Hnd IH]; cbn.
  - constructor; [intros [] | constructor].
  - constructor.
    + rewrite in_app_iff. intros [H | [-> | []]]; [contradiction|].
      apply Hx. left. reflexivity.
    + apply IH. intros H. apply Hx. right. exact H.
Qed.

(** Dropping rows keeps a key column free of repetitions. *)
Lemma NoDup_map_filter {Row Key : Type} (key : Row -> Key) (keep : Row -> bool)
  (table : list Row) (Hunique : NoDup (map key table)) :
  NoDup (map key (filter keep table)).
Proof.
  induction table as [|row table IH]; cbn in *; [constructor|].
  apply NoDup_cons_iff in Hunique as [Hrow Hunique].
  destruct (keep row); cbn; [|auto].
  constructor; [|auto]. intros Hin. apply Hrow.
  apply in_map_iff in Hin as (x & Hkey & Hx). apply filter_In in Hx as [Hx _].
  rewrite <- Hkey. apply in_map. exact Hx.
Qed.

Lemma insert_contacts_ids (cid : Z) (news : list (string * string))
  (l : list Contact.t) :
  NoDup (map Contact.id l) -> NoDup (map Contact.id (insert_contacts cid news l)).
Proof.
  revert l. induction news as [|[n p] news IH]; intros l Hnd; cbn; [exact Hnd|].
  apply IH. rewrite map_app. cbn. apply NoDup_snoc; [exact Hnd|].
  apply next_id_fresh.
Qed.

Lemma insert_contacts_In (cid : Z) (news : list (string * string))
  (l : list Contact.t) (c : Contact.t) :
  In c (insert_contacts cid news l) -> In c l \/ Contact.category_id c = cid.
Proof.
  revert l. induction news as [|[n p] news IH]; intros l Hin; cbn in Hin; [auto|].
  apply IH in Hin as [Hin | Hc]; [|auto].
  apply in_app_iff in Hin as [Hin | [<- | []]]; auto.
Qed.

Lemma edited_owner_In (id : Z) (n p : string) (l : list Contact.t) (y : Contact.t) :
  In y (edited id n p l) ->
  exists x, In x l /\ Contact.category_id x = Contact.category_id y.
Proof.
  unfold edited. intros H. apply in_map_iff in H as (x & Hy & Hx).
  exists x. split; [exact Hx|]. subst y.
  destruct (Contact.id x =? id); reflexivity.
Qed.

Lemma edited_ids (id : Z) (n p : string) (l : list Contact.t) :
  map Contact.id (edited id n p l) = map Contact.id l.
Proof.
  unfold edited. rewrite map_map. apply map_ext. intros x.
  destruct (Contact.id x =? id); reflexivity.
Qed.

Lemma contacts_of_nil (id : Z) (d : Database) (c : Contact.t) :
  contacts_of id d = [] -> In c (contacts d) -> Contact.category_id c <> id.
Proof.
  unfold contacts_of. intros Hnil Hin Hid.
  assert (H : In c (filter (fun c => Contact.category_id c =? id) (contacts d))).
  { apply filter_In. split; [exact Hin | apply Z.eqb_eq; exact Hid]. }
  rewrite Hnil in H. destruct H.
Qed.

Lemma transition_users (d d' : Database) : Transition d d' -> users d' = users d.
Proof. intros [ | | | | | ]; reflexivity. Qed.

Lemma transition_integrity (d d' : Database) :
  Transition d d' -> integrity d -> integrity d'.
Proof.
  intros Ht (Hcid & Hcname & Hkid & Huid & Huname & Hfk).
  destruct Ht as [ | n Hnew | id Hown | cid news Hex | id n p | id ];
    unfold integrity; cbn [categories contacts users with_categories with_contacts].
  - auto 10.
  - repeat split; auto.
    + rewrite map_app. cbn. apply NoDup_snoc; [exact Hcid | apply next_id_fresh].
    + rewrite map_app. cbn. apply NoDup_snoc; [exact Hcname|].
      intros Hin. apply in_map_iff in Hin as (c & Hc & Hin). apply Hnew.
      exists c. auto.
    + intros c Hc. destruct (Hfk c Hc) as (x & Hx & Hxid).
      exists x. split; [|exact Hxid]. cbn. apply in_app_iff. left. exact Hx.
  - repeat split; auto.
    + apply NoDup_map_filter. exact Hcid.
    + apply NoDup_map_filter. exact Hcname.
    + intros c Hc. destruct (Hfk c Hc) as (x & Hx & Hxid).
      exists x. split; [|exact Hxid]. cbn. apply filter_In. split; [exact Hx|].
      apply negb_true_iff, Z.eqb_neq. rewrite Hxid.
      exact (contacts_of_nil id d c Hown Hc).
  - repeat split; auto.
    + apply insert_contacts_ids. exact Hkid.
    + intros c Hc. apply insert_contacts_In in Hc as [Hc | ->].
      * exact (Hfk c Hc).
      * exact Hex.
  - repeat split; auto.
    + rewrite edited_ids. exact Hkid.
    + intros c Hc. apply edited_owner_In in Hc as (x & Hx & <-).
      exact (Hfk x Hx).
  - repeat split; auto.
    + apply NoDup_map_filter. exact Hkid.
    + intros c Hc. apply filter_In in Hc as [Hc _]. exact (Hfk c Hc).
Qed.

Lemma page_views_effect (w : World) :
  Effect w (snd (dashboard w)) /\
  forall category_id, Effect w (snd (view_contacts category_id w)).
Proof.
  unfold dashboard, view_contacts, login_required_page.
  destruct (current_user w); split; try intros category_id; run_view;
    try (cbn; no_change).
  destruct (find _ (categories (db w))); [|destruct (sqlite_integer _)];
    cbn; no_change.
Qed.

Section Invariants.

Variable environ : string -> option string.
Variable vendor : string -> Payload -> PostResult.
Variable check_password_hash : string -> string -> bool.

Lemma send_sms_rows (category_id : Z) (request : Request) (w : World) :
  let w' := snd (send_sms environ vendor category_id request w) in
  db w' = db w /\ session_user_id w' = session_user_id w /\
  exists posted, outbox w' = (outbox w ++ posted)%list /\ (List.length posted <= 1)%nat.
Proof.
  cbv zeta. unfold send_sms, login_required.
  destruct (current_user w).
  2:{ cbn. split; [reflexivity | split; [reflexivity|]]. exists [].
      rewrite app_nil_r. auto. }
  unfold requests_post, os_getenv. run_view.
  destruct (find _ (categories (db w))) as [c|].
  2:{ destruct (sqlite_integer _); cbn;
        (split; [reflexivity | split; [reflexivity|]]); exists [];
        rewrite app_nil_r; auto. }
  destruct (no_message (lookup "message" (form request))).
  { cbn. split; [reflexivity | split; [reflexivity|]]. exists [].
    rewrite app_nil_r. auto. }
  destruct (map Contact.phone (contacts_of (Category.id c) (db w))) as [|p ps].
  { cbn. split; [reflexivity | split; [reflexivity|]]. exists [].
    rewrite app_nil_r. auto. }
  destruct (vendor _ _) as [status_code text | e]; cbn.
  - destruct (status_code =? 200); cbn;
      (split; [reflexivity | split; [reflexivity|]]); eexists; split;
      try reflexivity; cbn; lia.
  - split; [reflexivity | split; [reflexivity|]]. eexists. split;
      [reflexivity | cbn; lia].
Qed.

Lemma login_rows (request : Request) (w : World) :
  let w' := snd (login check_password_hash request w) in
  db w' = db w /\ outbox w' = outbox w.
Proof.
  cbv zeta. unfold login. run_view.
  destruct (method request =? "POST")%string; [|cbn; auto].
  destruct (lookup "username" (form request)) as [u|]; [|cbn; auto].
  destruct (lookup "password" (form request)) as [p|]; [|cbn; auto].
  cbn. destruct (find _ (users (db w))) as [x|]; [|cbn; auto].
  destruct (check_password check_password_hash x p); cbn; auto.
Qed.

Lemma logout_rows (w : World) :
  db (snd (logout w)) = db w /\ outbox (snd (logout w)) = outbox w.
Proof.
  unfold logout, login_required. destruct (current_user w); cbn; auto.
Qed.

Lemma run_effect (c : Call) (w : World) :
  fresh_session w ->
  manages_rows c = true ->
  Effect w (snd (run environ vendor check_password_hash c w)).
Proof.
  intros Hfresh Hc. destruct c; try discriminate Hc; cbn [run];
    rewrite ?as_page_snd.
  - no_change.
  - apply page_views_effect.
  - apply add_category_transition, Hfresh.
  - apply delete_category_transition, Hfresh.
  - apply page_views_effect.
  - apply upload_contacts_transition, Hfresh.
  - apply add_contact_transition, Hfresh.
  - apply edit_contact_transition, Hfresh.
  - apply delete_contact_transition, Hfresh.
Qed.

Lemma run_transition (c : Call) (w : World) :
  fresh_session w ->
  Transition (db w) (db (snd (run environ vendor check_password_hash c w))).
Proof.
  intros Hfresh. destruct (manages_rows c) eqn:Hc.
  - apply (run_effect c w Hfresh Hc).
  - destruct c; try discriminate Hc; cbn [run]; rewrite as_page_snd.
    + destruct (send_sms_rows category_id request w) as (-> & _). constructor.
    + destruct (login_rows request w) as (-> & _). constructor.
    + destruct (logout_rows w) as (-> & _). constructor.
Qed.

(** Over any sequence of requests, served one after the other from rows that
    satisfy the constraints of the schema, the rows satisfy them still:
    ids and unique names stay unique, and every contact keeps pointing to a
    stored category. *)
Theorem serve_keeps_integrity (cs : list Call) (w : World) :
  fresh_session w ->
  integrity (db w) ->
  integrity (db (serve environ vendor check_password_hash cs w)).
Proof.
  revert w. induction cs as [|c cs IH]; intros w Hfresh Hint; [exact Hint|].
  cbn [serve]. apply IH; [reflexivity|].
  cbn [teardown set_pending db].
  exact (transition_integrity _ _ (run_transition c w Hfresh) Hint).
Qed.

(** No request ever adds, changes or removes a user: after any sequence of
    requests the users are the ones there were. *)
Theorem serve_keeps_users (cs : list Call) (w : World) :
  fresh_session w ->
  users (db (serve environ vendor check_password_hash cs w)) = users (db w).
Proof.
  revert w. induction cs as [|c cs IH]; intros w Hfresh; [reflexivity|].
  cbn [serve]. rewrite IH by reflexivity.
  cbn [teardown set_pending db].
  exact (transition_users _ _ (run_transition c w Hfresh)).
Qed.

(** Only [send_sms] posts to the vendor, and at most once per request: every
    other call leaves the outbox as it was. *)
Theorem only_send_sms_posts (c : Call) (w : World) :
  fresh_session w ->
  let w' := snd (run environ vendor check_password_hash c w) in
  (is_send_sms c = false -> outbox w' = outbox w) /\
  exists posted,
    outbox w' = (outbox w ++ posted)%list /\ (List.length posted <= 1)%nat.
Proof.
  intros Hfresh w'. subst w'.
  assert (Hsame : forall w', outbox w' = outbox w ->
            exists posted, outbox w' = (outbox w ++ posted)%list /\
                           (List.length posted <= 1)%nat).
  { intros w' ->. exists []. rewrite app_nil_r. auto. }
  destruct (manages_rows c) eqn:Hc.
  - destruct (run_effect c w Hfresh Hc) as (_ & Hout & _). auto.
  - destruct c; try discriminate Hc; cbn [run is_send_sms]; rewrite as_page_snd.
    + destruct (send_sms_rows category_id request w) as (_ & _ & Hposted).
      split; [discriminate | exact Hposted].
    + destruct (login_rows request w) as (_ & Hout). auto.
    + destruct (logout_rows w) as (_ & Hout). auto.
Qed.

(** The login session is bound and unbound by [login] and [logout] only:
    every other call leaves it as it was. *)
Theorem only_login_logout_touch_session (c : Call) (w : World) :
  fresh_session w ->
  match c with call_login _ | call_logout => False | _ => True end ->
  session_user_id (snd (run environ vendor check_password_hash c w)) =
    session_user_id w.
Proof.
  intros Hfresh Hc. destruct (manages_rows c) eqn:Hm.
  - destruct (run_effect c w Hfresh Hm) as (_ & _ & Hses). exact Hses.
  - destruct c; try discriminate Hm; try destruct Hc.
    cbn [run]. rewrite as_page_snd.
    destruct (send_sms_rows category_id request w) as (_ & Hses & _). exact Hses.
Qed.

End Invariants.

(* ===================================================================== *)
(** ** Requests in sequence                                               *)
(* ===================================================================== *)

Lemma add_category_run (request : Request) (name : string) (w : World) :
  is_authenticated w = true ->
  fresh_session w ->
  lookup "name" (form request) = Some name ->
  PyStr.blank name = false ->
  ~ category_named name (db w) ->
  add_category request w =
    (Return (redirect url_for_dashboard),
     set_flashes (flashes w ++ [("Category added successfully!", "success")])
       (set_db (with_categories
                  (categories (db w) ++
                   [Category.Build (next_id (map Category.id (categories (db w)))) name])
                  (db w)) w)).
Proof.
  intros Hauth Hfresh Hname Hblank Hnot.
  unfold add_category. rewrite (login_required_authenticated _ w Hauth).
  run_view. rewrite Hname, strip_eqb_blank, Hblank.
  destruct (category_unnamed_find name (db w) Hnot) as [Hfind Hex].
  rewrite Hfind. cbn. rewrite Hfresh. cbn. rewrite Hex. cbn.
  clear - Hfresh. unfold fresh_session in Hfresh.
  destruct w as [d p f u o]. cbn in *. subst p. reflexivity.
Qed.

Lemma add_contact_run
  (category_id : Z) (request : Request) (name phone : string) (w : World) :
  is_authenticated w = true ->
  fresh_session w ->
  category_exists category_id (db w) ->
  lookup "name" (form request) = Some name ->
  lookup "phone" (form request) = Some phone ->
  PyStr.blank phone = false ->
  add_contact category_id request w =
    (Return (redirect (url_for_view_contacts category_id)),
     set_flashes (flashes w ++ [("Contact added successfully!", "success")])
       (set_db (with_contacts
                  (contacts (db w) ++
                   [Contact.Build (next_id (map Contact.id (contacts (db w))))
                                  name phone category_id])
                  (db w)) w)).
Proof.
  intros Hauth Hfresh Hex Hname Hphone Hblank.
  unfold add_contact. rewrite (login_required_authenticated _ w Hauth).
  destruct (category_get_exists category_id (db w) Hex) as (c & Hfind & _ & Hid).
  run_view. rewrite Hfind, Hname, Hphone. cbn [of_option].
  rewrite truthy_strip_blank, Hblank. cbn. rewrite Hfresh, Hid. cbn.
  clear - Hfresh. unfold fresh_session in Hfresh.
  destruct w as [d p f u o]. cbn in *. subst p. reflexivity.
Qed.

Lemma filter_keeps_all {A} (p : A -> bool) (l : list A) :
  (forall x, In x l -> p x = true) -> filter p l = l.
Proof.
  induction l as [|a l IH]; intros H; cbn; [reflexivity|].
  rewrite (H a (or_introl eq_refl)). f_equal. apply IH.
  intros x Hx. apply H. right. exact Hx.
Qed.

Lemma filter_drops_last {A} (p : A -> bool) (l : list A) (x : A) :
  (forall y, In y l -> p y = true) -> p x = false -> filter p (l ++ [x]) = l.
Proof.
  intros Hl Hx. rewrite filter_app. cbn. rewrite Hx, app_nil_r.
  apply filter_keeps_all. exact Hl.
Qed.

Lemma delete_category_run (id : Z) (w : World) :
  is_authenticated w = true ->
  fresh_session w ->
  category_exists id (db w) ->
  contacts_of id (db w) = [] ->
  delete_category id w =
    (Return (redirect url_for_dashboard),
     set_flashes (flashes w ++ [("Category deleted successfully!", "success")])
       (set_pending []
          (set_db (with_categories
                     (filter (fun x => negb (Category.id x =? id)) (categories (db w)))
                     (db w)) w))).
Proof.
  intros Hauth Hfresh Hex Hnone. unfold fresh_session in Hfresh.
  unfold delete_category. rewrite (login_required_authenticated _ w Hauth).
  destruct (category_get_exists id (db w) Hex) as (c & Hfind & _ & Hid).
  run_view. rewrite Hfind. cbn. rewrite Hfresh.
  change ([] ++ [DeletedCategory c])%list with [DeletedCategory c].
  rewrite flush_deleted_category, Hid, Hnone. reflexivity.
Qed.

Lemma delete_contact_run (id : Z) (c : Contact.t) (w : World) :
  is_authenticated w = true ->
  fresh_session w ->
  find (fun x => Contact.id x =? id) (contacts (db w)) = Some c ->
  delete_contact id w =
    (Return (redirect (url_for_view_contacts (Contact.category_id c))),
     set_flashes (flashes w ++ [("Contact deleted successfully!", "success")])
       (set_pending []
          (set_db (with_contacts
                     (filter (fun x => negb (Contact.id x =? id)) (contacts (db w)))
                     (db w)) w))).
Proof.
  intros Hauth Hfresh Hfind. unfold fresh_session in Hfresh.
  unfold delete_contact. rewrite (login_required_authenticated _ w Hauth).
  run_view. rewrite Hfind. cbn. rewrite Hfresh. cbn.
  apply find_some in Hfind as [_ Hid]. apply Z.eqb_eq in Hid. rewrite Hid.
  reflexivity.
Qed.

Lemma find_last {A} (p : A -> bool) (l : list A) (x : A) :
  (forall y, In y l -> p y = false) -> p x = true -> find p (l ++ [x]) = Some x.
Proof.
  intros Hl Hx. induction l as [|a l IH]; cbn.
  - rewrite Hx. reflexivity.
  - rewrite (Hl a (or_introl eq_refl)). apply IH.
    intros y Hy. apply Hl. right. exact Hy.
Qed.

(** Adding a category and then deleting the category of the id it was given
    brings the rows back to what they were, on rows where every contact
    points to a stored category. *)
Theorem add_then_delete_category (request : Request) (name : string) (w : World) :
  is_authenticated w = true ->
  fresh_session w ->
  integrity (db w) ->
  lookup "name" (form request) = Some name ->
  PyStr.blank name = false ->
  ~ category_named name (db w) ->
  let w1 := teardown (snd (add_category request w)) in
  let id := next_id (map Category.id (categories (db w))) in
  category_exists id (db w1) /\
  fst (delete_category id w1) = Return (redirect url_for_dashboard) /\
  db (snd (delete_category id w1)) = db w.
Proof.
  intros Hauth Hfresh Hint Hname Hblank Hnot w1 id. subst w1.
  rewrite (add_category_run request name w Hauth Hfresh Hname Hblank Hnot).
  assert (Hnew : ~ In id (map Category.id (categories (db w))))
    by apply next_id_fresh.
  fold id. clearbody id. cbn [snd].
  set (new := Category.Build id name).
  set (w1 := teardown _).
  assert (Hauth1 : is_authenticated w1 = true) by exact Hauth.
  assert (Hcats : categories (db w1) = (categories (db w) ++ [new])%list)
    by reflexivity.
  assert (Hcontacts : contacts (db w1) = contacts (db w)) by reflexivity.
  assert (Hpending : pending w1 = []) by reflexivity.
  assert (Husers : users (db w1) = users (db w)) by reflexivity.
  clearbody w1.
  assert (Hex : category_exists id (db w1)).
  { exists new. split; [|reflexivity]. rewrite Hcats. apply in_app_iff.
    right. left. reflexivity. }
  assert (Hnone : contacts_of id (db w1) = []).
  { unfold contacts_of. rewrite Hcontacts.
    destruct (filter _ (contacts (db w))) as [|c l] eqn:Hf; [reflexivity|].
    assert (Hc : In c (filter (fun c => Contact.category_id c =? id) (contacts (db w)))).
    { rewrite Hf. left. reflexivity. }
    apply filter_In in Hc as [Hc Hcid]. apply Z.eqb_eq in Hcid.
    destruct Hint as (_ & _ & _ & _ & _ & Hfk).
    destruct (Hfk c Hc) as (x & Hx & Hxid).
    exfalso. apply Hnew. rewrite <- Hcid, <- Hxid. apply in_map. exact Hx. }
  split; [exact Hex|].
  rewrite (delete_category_run id w1 Hauth1 Hpending Hex Hnone).
  cbn [fst snd db set_db set_pending set_flashes].
  split; [reflexivity|].
  unfold with_categories. rewrite Hcats, Hcontacts, Husers, filter_drops_last.
  - destruct (db w); reflexivity.
  - intros y Hy. apply negb_true_iff, Z.eqb_neq. intros Hyid.
    apply Hnew. rewrite <- Hyid. apply in_map. exact Hy.
  - cbn. rewrite Z.eqb_refl. reflexivity.
Qed.

(** Adding a contact and then deleting the contact of the id it was given
    brings the rows back to what they were. *)
Theorem add_then_delete_contact
  (category_id : Z) (request : Request) (name phone : string) (w : World) :
  is_authenticated w = true ->
  fresh_session w ->
  category_exists category_id (db w) ->
  lookup "name" (form request) = Some name ->
  lookup "phone" (form request) = Some phone ->
  PyStr.blank phone = false ->
  let w1 := teardown (snd (add_contact category_id request w)) in
  let id := next_id (map Contact.id (contacts (db w))) in
  contact_exists id (db w1) /\
  fst (delete_contact id w1) = Return (redirect (url_for_view_contacts category_id)) /\
  db (snd (delete_contact id w1)) = db w.
Proof.
  intros Hauth Hfresh Hex Hname Hphone Hblank w1 id. subst w1.
  rewrite (add_contact_run category_id request name phone w
             Hauth Hfresh Hex Hname Hphone Hblank).
  assert (Hnew : ~ In id (map Contact.id (contacts (db w))))
    by apply next_id_fresh.
  fold id. clearbody id. cbn [snd].
  set (new := Contact.Build id name phone category_id).
  set (w1 := teardown _).
  assert (Hauth1 : is_authenticated w1 = true) by exact Hauth.
  assert (Hcontacts : contacts (db w1) = (contacts (db w) ++ [new])%list)
    by reflexivity.
  assert (Hcats : categories (db w1) = categories (db w)) by reflexivity.
  assert (Hpending : pending w1 = []) by reflexivity.
  assert (Husers : users (db w1) = users (db w)) by reflexivity.
  clearbody w1.
  assert (Hold : forall y, In y (contacts (db w)) -> (Contact.id y =? id) = false).
  { intros y Hy. apply Z.eqb_neq. intros Hyid. apply Hnew. rewrite <- Hyid.
    apply in_map. exact Hy. }
  assert (Hfind : find (fun c => Contact.id c =? id) (contacts (db w1)) = Some new).
  { rewrite Hcontacts. apply find_last; [exact Hold | apply Z.eqb_refl]. }
  split.
  { exists new. split; [|reflexivity]. rewrite Hcontacts. apply in_app_iff.
    right. left. reflexivity. }
  rewrite (delete_contact_run id new w1 Hauth1 Hpending Hfind).
  cbn [fst snd db set_db set_pending set_flashes Contact.category_id new].
  split; [reflexivity|].
  unfold with_contacts. rewrite Hcontacts, Hcats, Husers, filter_drops_last.
  - destruct (db w); reflexivity.
  - intros y Hy. rewrite (Hold y Hy). reflexivity.
  - cbn. rewrite Z.eqb_refl. reflexivity.
Qed.

(** A name that has just been added is refused the second time: the second
    [add_category] flashes "Category already exists!" and leaves the rows
    as the first left them. *)
Theorem add_category_twice (request : Request) (name : string) (w : World) :
  is_authenticated w = true ->
  fresh_session w ->
  lookup "name" (form request) = Some name ->
  PyStr.blank name = false ->
  ~ category_named name (db w) ->
  let w1 := teardown (snd (add_category request w)) in
  add_category request w1 =
    (Return (redirect url_for_dashboard),
     set_flashes (flashes w1 ++ [("Category already exists!", "warning")]) w1).
Proof.
  intros Hauth Hfresh Hname Hblank Hnot w1. subst w1.
  rewrite (add_category_run request name w Hauth Hfresh Hname Hblank Hnot).
  cbn [snd]. set (w1 := teardown _).
  assert (Hauth1 : is_authenticated w1 = true) by exact Hauth.
  assert (Hnamed : category_named name (db w1)).
  { exists (Category.Build (next_id (map Category.id (categories (db w)))) name).
    split; [|reflexivity]. cbn. apply in_app_iff. right. left. reflexivity. }
  clearbody w1.
  destruct (category_named_find name (db w1) Hnamed) as (c & Hfind).
  unfold add_category. rewrite (login_required_authenticated _ w1 Hauth1).
  run_view. rewrite Hname, strip_eqb_blank, Hblank, Hfind. reflexivity.
Qed.

(** The category that has just been added is on the dashboard, after the
    ones that were there. *)
Theorem add_category_then_dashboard (request : Request) (name : string) (w : World) :
  is_authenticated w = true ->
  fresh_session w ->
  lookup "name" (form request) = Some name ->
  PyStr.blank name = false ->
  ~ category_named name (db w) ->
  let w1 := teardown (snd (add_category request w)) in
  dashboard w1 =
    (Return (page_rendered "dashboard.html"
       (ctx_categories
          (categories (db w) ++
           [Category.Build (next_id (map Category.id (categories (db w)))) name]))),
     w1).
Proof.
  intros Hauth Hfresh Hname Hblank Hnot w1. subst w1.
  rewrite (add_category_run request name w Hauth Hfresh Hname Hblank Hnot).
  cbn [snd]. set (w1 := teardown _).
  assert (Hauth1 : is_authenticated w1 = true) by exact Hauth.
  unfold dashboard. rewrite (login_required_page_authenticated _ w1 Hauth1).
  reflexivity.
Qed.

Section Sequences.

Variable environ : string -> option string.
Variable vendor : string -> Payload -> PostResult.

(** A contact that has just been added to a category is the last recipient
    of the next [send_sms] to that category, after the phones that were
    there. *)
Theorem add_contact_then_send_sms
  (category_id : Z) (request sms : Request) (name phone m : string) (w : World) :
  is_authenticated w = true ->
  fresh_session w ->
  category_exists category_id (db w) ->
  lookup "name" (form request) = Some name ->
  lookup "phone" (form request) = Some phone ->
  PyStr.blank phone = false ->
  lookup "message" (form sms) = Some m ->
  PyStr.blank m = false ->
  let w1 := teardown (snd (add_contact category_id request w)) in
  outbox (snd (send_sms environ vendor category_id sms w1)) =
    (outbox w ++
     [(vendor_url,
       {| key := environ "MNOTIFY_API_KEY";
          recipient :=
            map Contact.phone (contacts_of category_id (db w)) ++ [phone];
          sender := environ "SENDER_ID";
          message := Some m |})])%list.
Proof.
  intros Hauth Hfresh Hex Hname Hphone Hblank Hmsg Hmblank w1. subst w1.
  rewrite (add_contact_run category_id request name phone w
             Hauth Hfresh Hex Hname Hphone Hblank).
  cbn [snd]. set (w1 := teardown _).
  assert (Hauth1 : is_authenticated w1 = true) by exact Hauth.
  assert (Hex1 : category_exists category_id (db w1)) by exact Hex.
  assert (Hown : contacts_of category_id (db w1) =
                 (contacts_of category_id (db w) ++
                  [Contact.Build (next_id (map Contact.id (contacts (db w))))
                                 name phone category_id])%list).
  { unfold contacts_of. cbn [w1 teardown set_pending set_flashes set_db db
                               contacts with_contacts].
    rewrite filter_app. cbn [filter Contact.category_id].
    rewrite Z.eqb_refl. reflexivity. }
  assert (Hout : outbox w1 = outbox w) by reflexivity.
  clearbody w1.
  assert (Hsome : contacts_of category_id (db w1) <> []).
  { rewrite Hown. intros H. apply app_eq_nil in H as [_ H]. discriminate. }
  rewrite (send_sms_posts environ vendor category_id sms m w1
             Hauth1 Hex1 Hsome Hmsg Hmblank).
  cbn [snd outbox set_flashes set_outbox]. unfold bulk_payload.
  rewrite Hown, Hout, map_app. reflexivity.
Qed.

End Sequences.

(* ===================================================================== *)
(** ** Provisioning the administrator                                     *)
(* ===================================================================== *)

Section AdminAccount.

Variable generate_password_hash : string -> string.
Variable check_password_hash : string -> string -> bool.

(** What werkzeug promises of the two: a password checks against the hash
    generated from it. *)
Hypothesis check_generated :
  forall password,
    check_password_hash (generate_password_hash password) password = true.

(** On rows with unique usernames and no user named "admin", init_db.py
    stores one user "admin", and a POST of admin / 12345 to [login] then
    binds the session to that user and redirects to the dashboard. *)
Theorem init_db_then_login (d : Database) (request : Request) (w : World) :
  NoDup (map User.username (users d)) ->
  (forall u, In u (users d) -> User.username u <> "admin") ->
  method request = "POST" ->
  lookup "username" (form request) = Some "admin" ->
  lookup "password" (form request) = Some "12345" ->
  exists d',
    init_db generate_password_hash d = Return d' /\
    categories d' = categories d /\
    contacts d' = contacts d /\
    users d' =
      (users d ++ [User.Build (next_id (map User.id (users d))) "admin"
                              (generate_password_hash "12345")])%list /\
    let r := login check_password_hash request (set_db d' w) in
    fst r = Return (redirect url_for_dashboard) /\
    session_user_id (snd r) = Some (next_id (map User.id (users d))) /\
    is_authenticated (snd r) = true.
Proof.
  intros Hnd Hfree Hpost Huser Hpass.
  assert (Hex : existsb (fun x => (User.username x =? "admin")%string) (users d) = false).
  { destruct (existsb _ (users d)) eqn:E; [|reflexivity].
    apply existsb_exists in E as (u & Hu & Hn). apply String.eqb_eq in Hn.
    destruct (Hfree u Hu Hn). }
  set (admin := User.Build (next_id (map User.id (users d))) "admin"
                           (generate_password_hash "12345")).
  exists (mkDatabase (categories d) (contacts d) (users d ++ [admin])).
  split.
  { unfold init_db, flush_new_user, set_password. cbn [new_username
      new_password_hash bind_param]. rewrite Hex. reflexivity. }
  split; [reflexivity | split; [reflexivity | split; [reflexivity |]]].
  cbv zeta. set (w1 := set_db _ w).
  assert (Hin : In admin (users (db w1))).
  { cbn. apply in_app_iff. right. left. reflexivity. }
  assert (Hfind : find (fun x => (User.username x =? "admin")%string)
                    (users (db w1)) = Some admin).
  { cbn [w1 set_db db users]. apply find_last.
    - intros y Hy. apply String.eqb_neq. exact (Hfree y Hy).
    - reflexivity. }
  unfold login. rewrite Hpost. run_view. rewrite Huser, Hpass.
  cbn [String.eqb Ascii.eqb Bool.eqb fst snd]. rewrite Hfind.
  unfold check_password. cbn [User.password_hash admin].
  rewrite check_generated. cbn.
  split; [reflexivity | split; [reflexivity |]].
  exact (authenticated_after_login admin w1 Hin).
Qed.

(** Run again, init_db.py is refused: with a user "admin" already stored the
    unique constraint on the username fails and no row is written. *)
Theorem init_db_twice (d : Database) :
  (exists u, In u (users d) /\ User.username u = "admin") ->
  init_db generate_password_hash d =
    Raise (IntegrityError "UNIQUE constraint failed: user.username").
Proof.
  intros (u & Hu & Hn).
  unfold init_db, flush_new_user, set_password.
  cbn [new_username new_password_hash bind_param].
  assert (Hex : existsb (fun x => (User.username x =? "admin")%string) (users d) = true).
  { apply existsb_exists. exists u. split; [exact Hu | apply String.eqb_eq, Hn]. }
  rewrite Hex. reflexivity.
Qed.

End AdminAccount.

(* ===================================================================== *)
(** ** Concrete runs of the statements above                              *)
(* ===================================================================== *)

Lemma sample_integrity : integrity Sample.rows0.
Proof.
  unfold integrity. cbn.
  repeat split;
    try (repeat constructor; cbn; intuition discriminate).
  intros c [<- | [<- | []]]; exists (Category.Build 1 "Parents"); cbn; auto.
Qed.

Lemma sample_no_teachers : ~ category_named "Teachers" (db Sample.world0).
Proof.
  intros (c & Hin & Hc). simpl in Hin.
  destruct Hin as [<- | [<- | []]]; discriminate.
Qed.

Lemma sample_category_2 : category_exists 2 (db Sample.world0).
Proof. exists (Category.Build 2 "Staff"). simpl. auto. Qed.

Lemma serve_keeps_integrity_witness :
  let cs := [call_add_category (Sample.post [("name", "Teachers")]);
             call_delete_category 1;
             call_upload_contacts 2 (Sample.upload Sample.sheet2)] in
  fresh_session Sample.world0 /\
  integrity (db Sample.world0) /\
  integrity (db (serve Sample.environ Sample.vendor_ok Sample.check_hash cs
                       Sample.world0)).
Proof.
  cbv zeta. split; [reflexivity | split; [exact sample_integrity |]].
  exact (serve_keeps_integrity Sample.environ Sample.vendor_ok Sample.check_hash
           _ Sample.world0 eq_refl sample_integrity).
Defined.

Lemma serve_keeps_users_witness :
  let cs := [call_add_category (Sample.post [("name", "Teachers")]);
             call_login (Sample.post [("username", "x"); ("password", "y")])] in
  fresh_session Sample.world0 /\
  users (db (serve Sample.environ Sample.vendor_ok Sample.check_hash cs
                   Sample.world0)) = [Sample.admin].
Proof.
  cbv zeta. split; [reflexivity |].
  exact (serve_keeps_users Sample.environ Sample.vendor_ok Sample.check_hash
           [call_add_category (Sample.post [("name", "Teachers")]);
            call_login (Sample.post [("username", "x"); ("password", "y")])]
           Sample.world0 eq_refl).
Defined.

Lemma only_send_sms_posts_witness :
  let c := call_add_contact 1 (Sample.post [("name", "Esi"); ("phone", "0241000003")]) in
  fresh_session Sample.world0 /\
  is_send_sms c = false /\
  outbox (snd (run Sample.environ Sample.vendor_ok Sample.check_hash c
                   Sample.world0)) = [].
Proof.
  cbv zeta. split; [reflexivity | split; [reflexivity |]].
  destruct (only_send_sms_posts Sample.environ Sample.vendor_ok Sample.check_hash
              (call_add_contact 1
                 (Sample.post [("name", "Esi"); ("phone", "0241000003")]))
              Sample.world0 eq_refl) as (Hsame & _).
  exact (Hsame eq_refl).
Defined.

Lemma only_login_logout_touch_session_witness :
  let c := call_send_sms 1 (Sample.post [("message", "hello")]) in
  fresh_session Sample.world0 /\
  session_user_id (snd (run Sample.environ Sample.vendor_ok Sample.check_hash c
                            Sample.world0)) = Some 1.
Proof.
  cbv zeta. split; [reflexivity |].
  exact (only_login_logout_touch_session Sample.environ Sample.vendor_ok
           Sample.check_hash (call_send_sms 1 (Sample.post [("message", "hello")]))
           Sample.world0 eq_refl I).
Defined.

Lemma add_then_delete_category_witness :
  let request := Sample.post [("name", "Teachers")] in
  is_authenticated Sample.world0 = true /\
  fresh_session Sample.world0 /\
  integrity (db Sample.world0) /\
  lookup "name" (form request) = Some "Teachers" /\
  PyStr.blank "Teachers" = false /\
  ~ category_named "Teachers" (db Sample.world0) /\
  db (snd (delete_category 3 (teardown (snd (add_category request Sample.world0))))) =
    db Sample.world0.
Proof.
  cbv zeta.
  split; [reflexivity | split; [reflexivity | split; [exact sample_integrity |]]].
  split; [reflexivity | split; [reflexivity | split; [exact sample_no_teachers |]]].
  destruct (add_then_delete_category (Sample.post [("name", "Teachers")]) "Teachers"
              Sample.world0 eq_refl eq_refl sample_integrity eq_refl eq_refl
              sample_no_teachers) as (_ & _ & Hdb).
  exact Hdb.
Defined.

Lemma add_then_delete_contact_witness :
  let request := Sample.post [("name", "Esi"); ("phone", "0241000003")] in
  is_authenticated Sample.world0 = true /\
  fresh_session Sample.world0 /\
  category_exists 2 (db Sample.world0) /\
  lookup "name" (form request) = Some "Esi" /\
  lookup "phone" (form request) = Some "0241000003" /\
  PyStr.blank "0241000003" = false /\
  db (snd (delete_contact 3 (teardown (snd (add_contact 2 request Sample.world0))))) =
    db Sample.world0.
Proof.
  cbv zeta.
  split; [reflexivity | split; [reflexivity | split; [exact sample_category_2 |]]].
  split; [reflexivity | split; [reflexivity | split; [reflexivity |]]].
  destruct (add_then_delete_contact 2
              (Sample.post [("name", "Esi"); ("phone", "0241000003")])
              "Esi" "0241000003" Sample.world0 eq_refl eq_refl sample_category_2
              eq_refl eq_refl eq_refl) as (_ & _ & Hdb).
  exact Hdb.
Defined.

Lemma add_category_twice_witness :
  let request := Sample.post [("name", "Teachers")] in
  is_authenticated Sample.world0 = true /\
  fresh_session Sample.world0 /\
  lookup "name" (form request) = Some "Teachers" /\
  PyStr.blank "Teachers" = false /\
  ~ category_named "Teachers" (db Sample.world0) /\
  fst (add_category request (teardown (snd (add_category request Sample.world0)))) =
    Return (redirect url_for_dashboard).
Proof.
  cbv zeta.
  split; [reflexivity | split; [reflexivity | split; [reflexivity |]]].
  split; [reflexivity | split; [exact sample_no_teachers |]].
  rewrite (add_category_twice (Sample.post [("name", "Teachers")]) "Teachers"
             Sample.world0 eq_refl eq_refl eq_refl eq_refl sample_no_teachers).
  reflexivity.
Defined.

Lemma add_category_then_dashboard_witness :
  let request := Sample.post [("name", "Teachers")] in
  is_authenticated Sample.world0 = true /\
  fresh_session Sample.world0 /\
  lookup "name" (form request) = Some "Teachers" /\
  PyStr.blank "Teachers" = false /\
  ~ category_named "Teachers" (db Sample.world0) /\
  fst (dashboard (teardown (snd (add_category request Sample.world0)))) =
    Return (page_rendered "dashboard.html"
      (ctx_categories [Category.Build 1 "Parents"; Category.Build 2 "Staff";
                       Category.Build 3 "Teachers"])).
Proof.
  cbv zeta.
  split; [reflexivity | split; [reflexivity | split; [reflexivity |]]].
  split; [reflexivity | split; [exact sample_no_teachers |]].
  rewrite (add_category_then_dashboard (Sample.post [("name", "Teachers")]) "Teachers"
             Sample.world0 eq_refl eq_refl eq_refl eq_refl sample_no_teachers).
  reflexivity.
Defined.

Lemma add_contact_then_send_sms_witness :
  let request := Sample.post [("name", "Esi"); ("phone", "0241000003")] in
  let sms := Sample.post [("message", "hello")] in
  is_authenticated Sample.world0 = true /\
  fresh_session Sample.world0 /\
  category_exists 2 (db Sample.world0) /\
  lookup "name" (form request) = Some "Esi" /\
  lookup "phone" (form request) = Some "0241000003" /\
  PyStr.blank "0241000003" = false /\
  lookup "message" (form sms) = Some "hello" /\
  PyStr.blank "hello" = false /\
  map (fun p => recipient (snd p))
    (outbox (snd (send_sms Sample.environ Sample.vendor_ok 2 sms
                    (teardown (snd (add_contact 2 request Sample.world0)))))) =
    [["0241000003"]].
Proof.
  cbv zeta.
  split; [reflexivity | split; [reflexivity | split; [exact sample_category_2 |]]].
  split; [reflexivity | split; [reflexivity | split; [reflexivity |]]].
  split; [reflexivity | split; [reflexivity |]].
  rewrite (add_contact_then_send_sms Sample.environ Sample.vendor_ok 2
             (Sample.post [("name", "Esi"); ("phone", "0241000003")])
             (Sample.post [("message", "hello")])
             "Esi" "0241000003" "hello" Sample.world0 eq_refl eq_refl
             sample_category_2 eq_refl eq_refl eq_refl eq_refl eq_refl).
  reflexivity.
Defined.

Lemma sample_check_generated (password : string) :
  Sample.check_hash (Sample.generate_hash password) password = true.
Proof. unfold Sample.check_hash, Sample.generate_hash. apply String.eqb_refl. Qed.

Lemma init_db_then_login_witness :
  let d := mkDatabase [] [] [] in
  let request := Sample.post [("username", "admin"); ("password", "12345")] in
  (forall password,
     Sample.check_hash (Sample.generate_hash password) password = true) /\
  NoDup (map User.username (users d)) /\
  (forall u, In u (users d) -> User.username u <> "admin") /\
  method request = "POST" /\
  lookup "username" (form request) = Some "admin" /\
  lookup "password" (form request) = Some "12345" /\
  exists d',
    init_db Sample.generate_hash d = Return d' /\
    users d' = [User.Build 1 "admin" "pbkdf2:12345"].
Proof.
  cbv zeta.
  assert (Hnd : NoDup (map User.username (users (mkDatabase [] [] [])))) by constructor.
  assert (Hfree : forall u, In u (users (mkDatabase [] [] [])) ->
                            User.username u <> "admin") by (intros u []).
  split; [exact sample_check_generated | split; [exact Hnd | split; [exact Hfree |]]].
  split; [reflexivity | split; [reflexivity | split; [reflexivity |]]].
  destruct (init_db_then_login Sample.generate_hash Sample.check_hash
              sample_check_generated (mkDatabase [] [] [])
              (Sample.post [("username", "admin"); ("password", "12345")])
              Sample.world0 Hnd Hfree eq_refl eq_refl eq_refl)
    as (d' & Hinit & _ & _ & Husers & _).
  exists d'. split; [exact Hinit | exact Husers].
Defined.

Lemma init_db_twice_witness :
  (exists u, In u (users Sample.rows0) /\ User.username u = "admin") /\
  init_db Sample.generate_hash Sample.rows0 =
    Raise (IntegrityError "UNIQUE constraint failed: user.username").
Proof.
  assert (He : exists u, In u (users Sample.rows0) /\ User.username u = "admin").
  { exists Sample.admin. split; [left; reflexivity | reflexivity]. }
  split; [exact He |].
  exact (init_db_twice Sample.generate_hash Sample.rows0 He).
Defined.

Lemma upload_contacts_every_row_witness :
  let file := mkFileStorage "contacts.xlsx" (Workbook Sample.sheet2) in
  is_authenticated Sample.world0 = true /\
  fresh_session Sample.world0 /\
  category_exists 2 (db Sample.world0) /\
  lookup "file" (files (Sample.upload Sample.sheet2)) = Some file /\
  PyStr.truthy (filename file) = true /\
  in_columns "Phone" Sample.sheet2 = true /\
  in_columns "Name" Sample.sheet2 = true /\
  Forall (named_row Sample.sheet2) (rows Sample.sheet2) /\
  List.length (contacts (db (snd (upload_contacts 2 (Sample.upload Sample.sheet2)
                                    Sample.world0)))) = 4%nat.
Proof.
  cbv zeta.
  assert (Hrows : Forall (named_row Sample.sheet2) (rows Sample.sheet2)).
  { repeat constructor; cbn; eauto. }
  split; [reflexivity | split; [reflexivity | split; [exact sample_category_2 |]]].
  split; [reflexivity | split; [reflexivity | split; [reflexivity |]]].
  split; [reflexivity | split; [exact Hrows |]].
  destruct (upload_contacts_every_row 2 (Sample.upload Sample.sheet2)
              (mkFileStorage "contacts.xlsx" (Workbook Sample.sheet2))
              Sample.sheet2 Sample.world0 eq_refl eq_refl sample_category_2
              eq_refl eq_refl eq_refl eq_refl eq_refl Hrows) as (_ & _ & Hlen).
  exact Hlen.
Defined.
